(** * BlenderFDS: the property/namelist mapping engine

    A shallow embedding of [zzz_blenderfds/types.py] (the [BFProp] and
    [BFNamelist] descriptor framework and the [BFScene] import adapter) and
    of the bounding-box helpers of [zzz_blenderfds/geometry/utils.py].

    Python values are modelled by the inductive [value]; Python floats are
    binary64 numbers (Rocq's primitive floats), strings are byte strings
    holding the UTF-8 encoding of the Python text.  A call that may raise
    returns a [result]. *)

From Stdlib Require Import ZArith QArith Lqa String Ascii List.
From Stdlib Require Import Floats.PrimFloat Floats.SpecFloat Floats.FloatOps.
From stdpp Require Import base option list strings gmap pretty.

Set Warnings "-register-all".
Open Scope string_scope.
Open Scope Z_scope.

(** ** Python values *)

Module Py.

(** The values a Blender property, a token of the tokenizer or an
    [fds_default] can hold: [None], [bool], [int], [float], [str] and
    tuples of them. *)
Inductive value : Type :=
  | VNone
  | VBool (b : bool)
  | VInt (n : Z)
  | VFloat (x : float)
  | VStr (s : string)
  | VTuple (l : list value).

(** Exceptions.  [BFException] is the only error of the engine; it carries
    its sender, a message and nested errors.  The others are the built-in
    exceptions the modelled statements can raise. *)
Inductive sender : Type :=
  | FromProp (cls_name : string)
  | FromNamelist (cls_name : string)
  | FromScene (scene_name : string).

Inductive BFException : Type :=
  | BFExc (snd : sender) (msg : string) (errors : list exn)
with exn : Type :=
  | EBF (e : BFException)
  | TypeError
  | ValueError
  | IndexError
  | KeyError
  | AttributeError
  | OverflowError.

Inductive result (A : Type) : Type :=
  | Ok (a : A)
  | Raise (e : exn).
Arguments Ok {A} a.
Arguments Raise {A} e.

(** [result] is a monad: a raise ends the computation.  With the two
    instances stdpp's [x ← r; k] notation and its [mapM] (a generator
    consumed left to right, the first raise ending it) are available. *)
#[export] Instance result_ret : MRet result := fun A a => Ok a.
#[export] Instance result_bind : MBind result := fun A B k r =>
  match r with
  | Ok a => k a
  | Raise e => Raise e
  end.

(** [sep.join(parts)] *)
Fixpoint join (sep : string) (parts : list string) : string :=
  match parts with
  | [] => ""
  | [p] => p
  | p :: ps => p +:+ sep +:+ join sep ps
  end.

(** [needle in s] on strings: substring test. *)
Fixpoint contains (needle s : string) : bool :=
  String.prefix needle s ||
  match s with
  | EmptyString => false
  | String _ s' => contains needle s'
  end.

(** [s.count(c)] for a one-character [c]. *)
Fixpoint count_char (c : ascii) (s : string) : nat :=
  match s with
  | EmptyString => O
  | String a s' => ((if Ascii.eqb a c then 1 else 0) + count_char c s')%nat
  end.

(** *** Truth value and equality *)

Definition float_is_zero (x : float) : bool := PrimFloat.eqb x 0%float.

Definition truthy (v : value) : bool :=
  match v with
  | VNone => false
  | VBool b => b
  | VInt n => negb (n =? 0)
  | VFloat x => negb (float_is_zero x)
  | VStr s => negb (String.eqb s "")
  | VTuple l => match l with [] => false | _ => true end
  end.

(** Python compares an [int] with a [float] by their exact values. *)
Definition sf_eq_Z (sf : spec_float) (n : Z) : bool :=
  match sf with
  | S754_zero _ => n =? 0
  | S754_finite s m e =>
      let mag := Z.pos m in
      let sgn := if s then (-1) else 1 in
      if 0 <=? e then n =? sgn * (mag * 2 ^ e)
      else (mag mod 2 ^ (- e) =? 0) && (n =? sgn * (mag / 2 ^ (- e)))
  | _ => false
  end.

Inductive num : Type :=
  | NInt (n : Z)
  | NFloat (x : float).

Definition as_num (v : value) : option num :=
  match v with
  | VBool b => Some (NInt (Z.b2z b))
  | VInt n => Some (NInt n)
  | VFloat x => Some (NFloat x)
  | _ => None
  end.

Definition num_eqb (a b : num) : bool :=
  match a, b with
  | NInt m, NInt n => m =? n
  | NFloat x, NFloat y => PrimFloat.eqb x y
  | NInt n, NFloat x | NFloat x, NInt n => sf_eq_Z (Prim2SF x) n
  end.

(** [a == b].  Numbers compare by value across [bool], [int] and [float];
    tuples compare element by element. *)
Fixpoint py_eqb (a b : value) : bool :=
  match a with
  | VNone => match b with VNone => true | _ => false end
  | VStr s => match b with VStr t => String.eqb s t | _ => false end
  | VTuple l =>
      match b with
      | VTuple m =>
          (fix go (l m : list value) : bool :=
             match l, m with
             | [], [] => true
             | x :: l', y :: m' => py_eqb x y && go l' m'
             | _, _ => false
             end) l m
      | _ => false
      end
  | VBool _ | VInt _ | VFloat _ =>
      match as_num a, as_num b with
      | Some x, Some y => num_eqb x y
      | _, _ => false
      end
  end.

(** [a != b] *)
Definition py_neb (a b : value) : bool := negb (py_eqb a b).

(** *** Decimal rendering *)

Definition digit (d : Z) : ascii := ascii_of_N (Z.to_N (48 + d)).

(** The last [p] decimal digits of [n], most significant first. *)
Fixpoint last_digits (p : nat) (n : Z) (acc : string) : string :=
  match p with
  | O => acc
  | S p' => last_digits p' (n / 10) (String (digit (n mod 10)) acc)
  end.

(** Round the non-negative rational [a / b] to the nearest integer, ties
    to even. *)
Definition round_half_even (a b : Z) : Z :=
  let q := a / b in
  let r := a mod b in
  match 2 * r ?= b with
  | Lt => q
  | Gt => q + 1
  | Eq => if Z.even q then q else q + 1
  end.

(** [format(x, ".pf")] for a binary64 [x]: the exact value of [x] correctly
    rounded to [p] decimals. *)
Definition fixed_sf (p : nat) (sf : spec_float) : string :=
  let sign (s : bool) := if s then "-" else "" in
  let render (s : bool) (n : Z) :=
    let scale := 10 ^ Z.of_nat p in
    sign s +:+ pretty (n / scale) +:+
    match p with
    | O => ""
    | _ => "." +:+ last_digits p (n mod scale) ""
    end in
  match sf with
  | S754_nan => "nan"
  | S754_infinity s => sign s +:+ "inf"
  | S754_zero s => render s 0
  | S754_finite s m e =>
      let scaled := Z.pos m * 10 ^ Z.of_nat p in
      render s (if 0 <=? e then scaled * 2 ^ e
                else round_half_even scaled (2 ^ (- e)))
  end.

(** [float(n)] for an [int]: nearest binary64, [OverflowError] past its
    range. *)
Definition float_of_Z (n : Z) : result spec_float :=
  match binary_normalize 53 1024 n 0 false with
  | S754_infinity _ => Raise OverflowError
  | sf => Ok sf
  end.

(** ["{:.{}f}".format(v, p)] *)
Definition format_fixed (p : nat) (v : value) : result string :=
  match v with
  | VFloat x => Ok (fixed_sf p (Prim2SF x))
  | VInt n => sf ← float_of_Z n; Ok (fixed_sf p sf)
  | VBool b => sf ← float_of_Z (Z.b2z b); Ok (fixed_sf p sf)
  | VStr _ => Raise ValueError
  | VNone | VTuple _ => Raise TypeError
  end.

(** *** [str] and [repr]

    [repr] of a float (the shortest decimal that reads back) and of a
    string (quoting and escaping by the Unicode tables) are built-ins of
    the interpreter; the engine only passes their output through, so they
    are taken as given. *)
Class Builtins : Type := {
  float_repr : float -> string;
  str_repr : string -> string
}.

Section Str.
Context `{Builtins}.

Definition tuple_repr (items : list string) : string :=
  "(" +:+ join ", " items +:+
  match items with [_] => "," | _ => "" end +:+ ")".

(** [repr(v)] *)
Fixpoint py_repr (v : value) : string :=
  match v with
  | VNone => "None"
  | VBool b => if b then "True" else "False"
  | VInt n => pretty n
  | VFloat x => float_repr x
  | VStr s => str_repr s
  | VTuple l => tuple_repr (map py_repr l)
  end.

(** [str(v)], also what ["{}".format(v)] inserts. *)
Definition py_str (v : value) : string :=
  match v with
  | VStr s => s
  | _ => py_repr v
  end.
End Str.

(** Modelled from the spec: [utils.is_iterable] is not part of the sources
    at hand; the spec has a scalar, strings included, treated apart from a
    sequence of values. *)
Definition is_iterable (v : value) : bool :=
  match v with
  | VTuple _ => true
  | _ => false
  end.

(** [needle in v] for a string [needle]: substring of a string, member of
    a tuple; other values are not containers. *)
Definition py_in (needle : string) (v : value) : result bool :=
  match v with
  | VStr s => Ok (contains needle s)
  | VTuple l => Ok (existsb (py_eqb (VStr needle)) l)
  | _ => Raise TypeError
  end.

(** [v.count("'")] *)
Definition py_count_quote (v : value) : result nat :=
  match v with
  | VStr s => Ok (count_char "'" s)
  | VTuple l => Ok (length (filter (fun x => py_eqb x (VStr "'") = true) l))
  | _ => Raise AttributeError
  end.

End Py.

(** ** types.py: descriptor classes *)

Import Py.

(** A Blender element (a Scene, an Object or a Material) as its attributes
    by name; [getattr(element, name, None)] reads it. *)
Abbreviation element := (gmap string value).

Definition getattr (e : element) (name : string) : value :=
  default VNone (e !! name).

Inductive bpy_types : Type := Scene | Object | Material.

(** The class of [types.py] a descriptor class inherits its methods from.
    [BFExportProp], [BFGeometryProp], [BFXBProp], [BFXYZProp] and
    [BFPBProp] override none of the modelled methods of [BFProp];
    [BFFYIProp] none of [BFStringProp]. *)
Inductive base_cls : Type :=
  | BFNamelist
  | BFProp
  | BFStringProp
  | BFFreeProp.

(** What a call of [check] does: the infos it appends to [self.infos] and
    whether it then raises. *)
Definition check_outcome : Type := list value * result unit.

(** A descriptor class: the class attributes of [_BFCommon] that the
    modelled methods read.  [bpy_default] and [bpy_precision] are the
    ["default"] and ["precision"] entries of [bpy_other], [bf_draw_type]
    the ["draw_type"] entry of [bf_other]; [check_override]
    is the [check] of a class that defines its own, as a function of the
    element it reads. *)
Inductive BFClass : Type := MkBFClass {
  cls_name : string;
  base : base_cls;
  fds_label : option string;
  fds_default : value;
  fds_separator : string;
  bf_prop_export : option BFClass;
  bf_props : list BFClass;
  bpy_type : option bpy_types;
  bpy_idname : option string;
  bpy_default : value;
  bpy_precision : option nat;
  bf_draw_type : option string;
  check_override : option (element -> check_outcome)
}.

(** A short-lived instance ([_BFCommon.__init__]): its class, its [infos]
    and the instances of its [bf_props]; the element is passed along with
    it.  The instance made of [bf_prop_export] has no state that is read. *)
Inductive instance : Type :=
  | Inst (cls : BFClass) (infos : list value) (props : list instance).

Definition cls_of (i : instance) : BFClass := let (c, _, _) := i in c.
Definition infos_of (i : instance) : list value := let (_, infos, _) := i in infos.
Definition props_of (i : instance) : list instance := let (_, _, props) := i in props.

(** [cls(element)] *)
Fixpoint new (c : BFClass) : instance :=
  Inst c [] (map new (bf_props c)).

(** [x or y] on an optional string: [None] and [""] are false. *)
Definition str_truthy (o : option string) : option string :=
  match o with
  | Some s => if String.eqb s "" then None else Some s
  | None => None
  end.

(** *** _BFCommon *)

(** [_BFCommon.get_value] *)
Definition get_value (c : BFClass) (e : element) : value :=
  getattr e (default "" (str_truthy (bpy_idname c))).

(** [_BFCommon.get_exported] *)
Definition get_exported (c : BFClass) (e : element) : bool :=
  match fds_default c with
  | VNone =>
      match bf_prop_export c with
      | Some x => truthy (get_value x e)
      | None => true
      end
  | d =>
      match bf_prop_export c with
      | Some x => truthy (get_value x e) && py_neb (get_value c e) d
      | None => py_neb (get_value c e) d
      end
  end.

Definition sender_of (c : BFClass) : sender :=
  match base c with
  | BFNamelist => FromNamelist (cls_name c)
  | _ => FromProp (cls_name c)
  end.

Definition raise_bf {A} (c : BFClass) (msg : string) (errors : list exn) : result A :=
  Raise (EBF (BFExc (sender_of c) msg errors)).

(** The quote characters the checks name, as UTF-8: the ASCII double
    quote and backquote, U+201C, U+201D, U+2018, and U+2019 followed by
    U+200C (the source's literal holds both). *)
Definition dquote : string := String (ascii_of_nat 34) "".
Definition ldquo : string := "“".
Definition rdquo : string := "”".
Definition lsquo : string := "‘".
Definition rsquo_zwnj : string := "’‌".

(** [a or b] on two tests that may raise. *)
Definition or_else (a b : result bool) : result bool :=
  x ← a; if x : bool then Ok true else b.

(** [BFStringProp.check] *)
Definition BFStringProp_check (c : BFClass) (e : element) : result unit :=
  let value := get_value c e in
  t1 ← or_else (py_in "&" value) (py_in "/" value);
  if t1 : bool then raise_bf c "& and / characters not allowed" [] else
  t2 ← py_in "#" value;
  if t2 : bool then raise_bf c "Some special characters are not allowed (eg. #)" [] else
  t3 ← or_else (py_in "'" value) (or_else (py_in dquote value)
       (or_else (py_in "`" value) (or_else (py_in ldquo value)
       (or_else (py_in rdquo value) (or_else (py_in lsquo value)
       (py_in rsquo_zwnj value))))));
  if t3 : bool then raise_bf c "Quote characters not allowed" [] else
  Ok ().

(** [BFFreeProp.check] *)
Definition BFFreeProp_check (c : BFClass) (e : element) : result unit :=
  let value := get_value c e in
  t1 ← or_else (py_in "&" value) (py_in "/" value);
  if t1 : bool then raise_bf c "& and / characters not allowed" [] else
  t2 ← py_in "#" value;
  if t2 : bool then raise_bf c "Some special characters are not allowed (eg. #)" [] else
  t3 ← or_else (py_in "`" value) (or_else (py_in lsquo value)
       (or_else (py_in rsquo_zwnj value) (or_else (py_in dquote value)
       (or_else (py_in rdquo value)
       (n ← py_count_quote value; Ok (negb (Nat.even n)))))));
  if t3 : bool then
    raise_bf c "Only use matched single quotes as 'string' delimiters" []
  else Ok ().

(** [self.check(context)], by the class the method is inherited from;
    [_BFCommon.check] does nothing. *)
Definition check (c : BFClass) (e : element) : check_outcome :=
  match check_override c with
  | Some f => f e
  | None =>
      match base c with
      | BFStringProp => ([], BFStringProp_check c e)
      | BFFreeProp => ([], BFFreeProp_check c e)
      | BFNamelist | BFProp => ([], Ok ())
      end
  end.

(** *** BFProp *)

Definition nl : string := String (ascii_of_nat 10) "".

Definition label_prefix (c : BFClass) (body : string) : string :=
  match str_truthy (fds_label c) with
  | Some l => l +:+ "=" +:+ body
  | None => body
  end.

(** "If value is not an iterable, then put it in a tuple" *)
Definition values_of (value : value) : list Py.value :=
  if is_iterable value
  then match value with VTuple l => l | _ => [] end
  else [value].

Section Exporting.
Context `{Builtins}.

(** The rendering of [values], chosen by the first of them; [value] is
    the value as it was passed to [format]. *)
Definition render_values (c : BFClass) (value : value) (values : list Py.value)
  : result (option string) :=
  match values with
  | [] => Raise IndexError
  | VBool _ :: _ =>
      Ok (Some (join "," (map (fun v => if truthy v then ".TRUE." else ".FALSE.") values)))
  | VInt _ :: _ =>
      Ok (Some (join "," (map py_str values)))
  | VFloat _ :: _ =>
      parts ← mapM (format_fixed (default 3%nat (bpy_precision c))) values;
      Ok (Some (join "," parts))
  | VStr _ :: _ =>
      if truthy value
      then Ok (Some (join "," (map (fun v => "'" +:+ py_str v +:+ "'") values)))
      else Ok None
  | _ :: _ => Ok None
  end.

(** [BFProp.format] *)
Definition BFProp_format (c : BFClass) (value : value) : result (option string) :=
  match value with
  | VNone => Ok None
  | _ =>
      r ← render_values c value (values_of value);
      Ok (option_map (label_prefix c) r)
  end.

(** [BFStringProp.format] *)
Definition BFStringProp_format (c : BFClass) (value : value) : result (option string) :=
  if truthy value then
    match str_truthy (fds_label c) with
    | Some l => Ok (Some (l +:+ "='" +:+ py_str value +:+ "'"))
    | None => Ok (Some (py_str value))
    end
  else Ok None.

(** [self.format(context, value)] of a property. *)
Definition format (c : BFClass) (value : value) : result (option string) :=
  match base c with
  | BFStringProp | BFFreeProp => BFStringProp_format c value
  | BFProp | BFNamelist => BFProp_format c value
  end.

(** [BFProp.to_fds]: the exported string or [None], and the instance
    afterwards. *)
Definition BFProp_to_fds (i : instance) (e : element)
  : result (option string) * instance :=
  let c := cls_of i in
  if negb (get_exported c e) then (Ok None, i) else
  let '(added, checked) := check c e in
  (_ ← checked; format c (get_value c e),
   Inst c (infos_of i ++ added)%list (props_of i)).

(** *** BFNamelist *)

(** [self.fds_label or params.pop(0)], with the parameters left. *)
Definition pop_label (c : BFClass) (params : list value)
  : result (string * list value) :=
  match str_truthy (fds_label c) with
  | Some l => Ok (l, params)
  | None =>
      match params with
      | [] => Raise IndexError
      | VStr s :: rest => Ok (s, rest)
      | _ :: _ => Raise TypeError
      end
  end.

(** [is_iterable(info) and info[0] or info] *)
Definition info_text (info : value) : result value :=
  match info with
  | VTuple [] => Raise IndexError
  | VTuple (x :: _) => Ok (if truthy x then x else info)
  | _ => Ok info
  end.

(** The first iterable parameter, with the parameters before and after. *)
Fixpoint split_multiparams (params : list value)
  : option (list value * value * list value) :=
  match params with
  | [] => None
  | p :: ps =>
      if is_iterable p then Some ([], p, ps)
      else '(pre, m, post) ← split_multiparams ps; Some (p :: pre, m, post)
  end.

(** [param[:3] == "ID="]; the three first characters are ASCII, so bytes
    and code points agree. *)
Definition is_id (param : value) : result bool :=
  match param with
  | VStr s => Ok (String.prefix "ID=" s)
  | VTuple _ => Ok false
  | _ => Raise TypeError
  end.

(** The inner loop: remove the first parameter that starts with ["ID="]. *)
Fixpoint remove_id (params : list value) : result (list value) :=
  match params with
  | [] => Ok []
  | p :: ps =>
      b ← is_id p;
      if b : bool then Ok ps else ps' ← remove_id ps; Ok (p :: ps')
  end.

Definition as_str (v : value) : result string :=
  match v with
  | VStr s => Ok s
  | _ => Raise TypeError
  end.

(** [sep.join(items)] on values: every item must be a string. *)
Definition str_join (sep : string) (items : list value) : result string :=
  ss ← mapM as_str items; Ok (join sep ss).

(** The comment lines of the infos: ["! {}\n"] for each. *)
Definition info_lines (infos : list value) : result string :=
  texts ← mapM info_text infos;
  Ok (join "" (map (fun t => "! " +:+ py_str t +:+ nl) texts)).

(** [BFNamelist.format] *)
Definition BFNamelist_format (c : BFClass) (infos : list value) (params : list value)
  : result string :=
  '(label, params) ← pop_label c params;
  let fds_label := "&" +:+ label +:+ " " in
  info ← info_lines infos;
  '(multiparams, params) ←
    match split_multiparams params with
    | Some (pre, m, post) => ps ← remove_id (pre ++ post)%list; Ok (m, ps)
    | None => Ok (VNone, params)
    end;
  param ← str_join (fds_separator c) (params ++ [VStr ("/" +:+ nl)])%list;
  body ←
    (if truthy multiparams then
       match multiparams with
       | VTuple ms =>
           bodies ← mapM as_str ms;
           Ok (join "" (map (fun m => join (fds_separator c) [fds_label +:+ m; param]) bodies))
       | _ => Raise TypeError
       end
     else Ok (fds_label +:+ param));
  Ok (info +:+ body).

(** The loop of [BFNamelist.to_fds] over [self.bf_props]: the collected
    parameters and errors, [self.infos] and the property instances
    afterwards.  Only a [BFException] is caught. *)
Fixpoint export_props (props : list instance) (e : element)
    (params : list string) (errors : list exn) (infos : list value)
  : result (list string * list exn) * list value * list instance :=
  match props with
  | [] => (Ok (params, errors), infos, [])
  | p :: ps =>
      let '(r, p') := BFProp_to_fds p e in
      match r with
      | Ok param =>
          let params' :=
            match str_truthy param with
            | Some s => (params ++ [s])%list
            | None => params
            end in
          let '(r', infos', ps') :=
            export_props ps e params' errors (infos ++ infos_of p')%list in
          (r', infos', p' :: ps')
      | Raise (EBF err) =>
          let '(r', infos', ps') :=
            export_props ps e params (errors ++ [EBF err])%list infos in
          (r', infos', p' :: ps')
      | Raise err => (Raise err, infos, p' :: ps)
      end
  end.

(** [BFNamelist.to_fds] *)
Definition BFNamelist_to_fds (i : instance) (e : element)
  : result (option string) * instance :=
  let c := cls_of i in
  if negb (get_exported c e) then (Ok None, i) else
  let '(added, checked) := check c e in
  let infos0 := (infos_of i ++ added)%list in
  match checked with
  | Raise err => (Raise err, Inst c infos0 (props_of i))
  | Ok _ =>
      let '(r, infos1, props') := export_props (props_of i) e [] [] infos0 in
      let i' := Inst c infos1 props' in
      match r with
      | Raise err => (Raise err, i')
      | Ok (params, []) =>
          (s ← BFNamelist_format c infos1 (VStr <$> params); Ok (Some s), i')
      | Ok (_, errors) => (raise_bf c "Following errors reported" errors, i')
      end
  end.
End Exporting.

(** ** Import *)

(** [subscribe]: [cls.all_bf_props], the export property of the class, then
    each of its [bf_props] followed by that property's own collection. *)
Fixpoint all_bf_props (c : BFClass) : list BFClass :=
  (match bf_prop_export c with Some x => [x] | None => [] end ++
   flat_map (fun p => p :: all_bf_props p) (bf_props c))%list.

(** Modelled from the spec: [ClsList.get_by_fds_label] of [utils] is not
    part of the sources at hand; the spec has the property descriptor
    looked up by its external label in the collection, none when no label
    matches. *)
Definition get_by_fds_label (l : list BFClass) (fds_label' : string) : option BFClass :=
  List.find (fun c => bool_decide (fds_label c = Some fds_label')) l.

(** [isinstance(bf_prop, BFFreeProp)] *)
Definition is_free_prop (c : BFClass) : bool :=
  match base c with
  | BFFreeProp => true
  | _ => false
  end.

(** [_BFCommon.bf_prop_free]: the first of [self.bf_props] that is a
    [BFFreeProp]. *)
Definition bf_prop_free (c : BFClass) : option BFClass :=
  List.find is_free_prop (bf_props c).

(** Blender checks an assignment to a registered property against the
    property's type and options, and raises on a value it refuses; which
    values it takes is the host's matter. *)
Class Blender : Type := {
  bpy_accepts : element -> string -> value -> bool
}.

(** A method that reads and writes a state [S] (an element, or the whole
    of Blender's data): the outcome and the state afterwards.  What was
    written before a raise stays written. *)
Definition st (S A : Type) : Type := S -> result A * S.

#[export] Instance st_ret {S} : MRet (st S) := fun A a s => (Ok a, s).
#[export] Instance st_bind {S} : MBind (st S) := fun A B k m s =>
  match m s with
  | (Ok a, s') => k a s'
  | (Raise err, s') => (Raise err, s')
  end.

Definition io : Type -> Type := st element.

(** [for x in xs: body(x)] *)
Fixpoint for_each {S A} (body : A -> st S unit) (xs : list A) : st S unit :=
  match xs with
  | [] => mret ()
  | x :: xs' => _ ← body x; for_each body xs'
  end.

(** A dictionary of tokens [{fds_label: (value, fds_value)}] as its items
    in iteration order; the keys of a dictionary are distinct. *)
Definition tokens : Type := list (string * (value * string)).

(** [sorted(tokens.keys(), key=lambda k: k == "SURF_ID")]: the sort is
    stable, ["SURF_ID"] goes last. *)
Definition sorted_tokens (t : tokens) : tokens :=
  (List.filter (fun kv => negb (String.eqb (fst kv) "SURF_ID")) t ++
   List.filter (fun kv => String.eqb (fst kv) "SURF_ID") t)%list.

Section Importing.
Context `{Builtins} `{Blender}.

(** [setattr(element, name, value)] *)
Definition setattr (name : string) (v : value) : io unit := fun e =>
  if bpy_accepts e name v then (Ok (), <[name := v]> e)
  else (Raise TypeError, e).

(** [_BFCommon.set_value] *)
Definition set_value (c : BFClass) (v : value) : io unit :=
  match str_truthy (bpy_idname c) with
  | Some name => setattr name v
  | None => mret ()
  end.

(** [_BFCommon.set_exported] *)
Definition set_exported (c : BFClass) (v : value) : io unit :=
  match bf_prop_export c with
  | Some x => set_value x v
  | None => mret ()
  end.

(** [_BFCommon.set_default_value] *)
Definition set_default_value (c : BFClass) : io unit :=
  match bpy_default c with
  | VNone => mret ()
  | d => set_value c d
  end.

(** [_BFCommon.set_default] *)
Definition set_default (c : BFClass) : io unit :=
  _ ← set_default_value c;
  for_each set_default_value (all_bf_props c).

(** [BFProp.from_fds]: any exception of the assignment is replaced. *)
Definition BFProp_from_fds (c : BFClass) (v : value) : io unit := fun e =>
  match set_value c v e with
  | (Ok _, e') => set_exported c (VBool true) e'
  | (Raise _, e') =>
      (raise_bf c ("Error importing '" +:+ py_str v +:+ "' value") [], e')
  end.

(** The loop of [BFNamelist.from_fds] over the sorted tokens, with the
    lists [free_texts] and [errors] it appends to.  Every exception of a
    property's import is caught. *)
Fixpoint import_tokens (c : BFClass) (t : tokens)
    (free_texts : list string) (errors : list exn) (e : element)
  : list string * list exn * element :=
  match t with
  | [] => (free_texts, errors, e)
  | (fds_label', (v, fds_value)) :: t' =>
      match get_by_fds_label (all_bf_props c) fds_label' with
      | Some bf_prop_cls =>
          match BFProp_from_fds bf_prop_cls v e with
          | (Ok _, e') => import_tokens c t' free_texts errors e'
          | (Raise err, e') =>
              import_tokens c t' free_texts (errors ++ [err])%list e'
          end
      | None =>
          import_tokens c t'
            (free_texts ++ [fds_label' +:+ "=" +:+ fds_value])%list errors e
      end
  end.

(** "Save unmanaged tokens in self.bf_prop_free" *)
Definition save_free_texts (c : BFClass) (free_texts : list string) : io unit :=
  match free_texts, bf_prop_free c with
  | _ :: _, Some free => set_value free (VStr (join " " free_texts))
  | _, _ => mret ()
  end.

(** "Re-raise occurred errors", else "set export of myself" *)
Definition raise_or_export (c : BFClass) (errors : list exn) : io unit :=
  match errors with
  | _ :: _ => fun e => (raise_bf c "Following errors reported" errors, e)
  | [] => set_exported c (VBool true)
  end.

(** "Only scene namelists may be overwritten; do not mix old and new
    properties, so first set default" *)
Definition reset_scene (c : BFClass) : io unit :=
  match bpy_type c with
  | Some Scene => set_default c
  | _ => mret ()
  end.

(** [BFNamelist.from_fds]; [None] stands for a missing token collection. *)
Definition BFNamelist_from_fds (c : BFClass) (t : option tokens) : io unit :=
  match t with
  | None | Some [] => mret ()
  | Some t =>
      _ ← reset_scene c;
      (fun e =>
         let '(free_texts, errors, e1) :=
           import_tokens c (sorted_tokens t) [] [] e in
         (_ ← save_free_texts c free_texts; raise_or_export c errors) e1) : io unit
  end.
End Importing.

(** ** BFScene: import of a document *)

(** Blender's data as the import sees it: the scene, the objects and
    materials created so far, and the text blocks [bpy.data.texts] by
    name. *)
Record world : Type := MkWorld {
  scene : element;
  objects : list element;
  materials : list element;
  texts : gmap string string
}.

(** A reference to an element of the data. *)
Inductive handle : Type :=
  | HScene
  | HObject (i : nat)
  | HMaterial (i : nat).

Definition get_element (h : handle) (w : world) : element :=
  match h with
  | HScene => scene w
  | HObject i => default ∅ (objects w !! i)
  | HMaterial i => default ∅ (materials w !! i)
  end.

Definition put_element (h : handle) (e : element) (w : world) : world :=
  match h with
  | HScene => MkWorld e (objects w) (materials w) (texts w)
  | HObject i => MkWorld (scene w) (<[i := e]> (objects w)) (materials w) (texts w)
  | HMaterial i => MkWorld (scene w) (objects w) (<[i := e]> (materials w)) (texts w)
  end.

(** A method of an element, run on the element [h] refers to. *)
Definition on_element {A} (h : handle) (m : io A) : st world A := fun w =>
  let '(r, e') := m (get_element h w) in (r, put_element h e' w).

(** A token of the tokenizer: [(fds_label, fds_params, fds_original)]. *)
Definition token : Type := string * tokens * string.

(** What the import calls outside of [types.py]: the tokenizer
    [fds.to_py.tokenize], the [free_texts] of a [BFException] and
    [fds.head.set_free_text_file], which answers the name of the scene's
    free text file after getting or creating it. *)
Class Fds : Type := {
  tokenize : string -> result (list token);
  free_texts_of : BFException -> list string;
  set_free_text_file : world -> string * world
}.

(** Modelled from the spec: [ClsList.get] of [utils] is not part of the
    sources at hand; the spec has the registry map the identity of a
    descriptor class to the class. *)
Definition get_by_name (all : list BFClass) (name : string) : option BFClass :=
  List.find (fun c => String.eqb (cls_name c) name) all.

Section Scene.
Context `{Builtins} `{Blender} `{Fds}.

(** The registry [BFNamelist.all]. *)
Variable all : list BFClass.

(** [BFScene._get_imported_bf_namelist_cls] *)
Definition get_imported_bf_namelist_cls (fds_label' : string) (fds_params : tokens)
  : result (option BFClass) :=
  match get_by_fds_label all fds_label' with
  | Some c => Ok (Some c)
  | None =>
      if existsb (fun label => existsb (fun kv => String.eqb (fst kv) label) fds_params)
                 ["XB"; "XYZ"; "PBX"; "PBY"; "PBZ"]
      then match get_by_name all "ON_free" with
           | Some c => Ok (Some c)
           | None => Raise KeyError
           end
      else Ok None
  end.

(** [BFScene.set_default_appearance] *)
Definition scene_set_default_appearance : io unit :=
  _ ← setattr "unit_settings.system" (VStr "METRIC");
  setattr "render.engine" (VStr "CYCLES").

(** [BFObject.set_default_appearance] *)
Definition object_set_default_appearance : io unit := fun e =>
  match (match getattr e "bf_namelist_cls" with
         | VStr name => get_by_name all name
         | _ => None
         end) with
  | None => (Ok (), e)
  | Some bf_namelist =>
      (_ ← (match str_truthy (bf_draw_type bf_namelist) with
            | Some draw_type => setattr "draw_type" (VStr draw_type)
            | None => mret ()
            end : io unit);
       setattr "show_transparent" (VBool true)) e
  end.

(** [BFMaterial.set_default_appearance] *)
Definition material_set_default_appearance : io unit :=
  setattr "use_fake_user" (VBool true).

(** [geometry.utils.get_new_object] and [get_new_material]: a new
    element of that name, added to the data. *)
Definition get_new_object (name : string) : st world handle := fun w =>
  (Ok (HObject (length (objects w))),
   MkWorld (scene w) (objects w ++ [{[ "name" := VStr name ]}])%list
           (materials w) (texts w)).

Definition get_new_material (name : string) : st world handle := fun w =>
  (Ok (HMaterial (length (materials w))),
   MkWorld (scene w) (objects w)
           (materials w ++ [{[ "name" := VStr name ]}])%list (texts w)).

(** [BFScene._get_imported_element] *)
Definition get_imported_element (bf_namelist_cls : BFClass) (fds_label' : string)
  : st world handle :=
  match bpy_type bf_namelist_cls with
  | Some Scene =>
      _ ← on_element HScene scene_set_default_appearance;
      mret HScene
  | Some Object =>
      h ← get_new_object ("New " +:+ fds_label');
      _ ← on_element h (setattr "bf_namelist_cls" (VStr (cls_name bf_namelist_cls)));
      _ ← on_element h object_set_default_appearance;
      mret h
  | Some Material =>
      h ← get_new_material ("New " +:+ fds_label');
      _ ← on_element h (setattr "bf_namelist_cls" (VStr "MN_SURF"));
      _ ← on_element h material_set_default_appearance;
      mret h
  | None => fun w => (Raise ValueError, w)
  end.

(** [BFScene._save_imported_unmanaged_tokens] *)
Definition save_imported_unmanaged_tokens (free_texts : list string) : st world unit :=
  fun w =>
  let '(bf_head_free_text, w1) := set_free_text_file w in
  match texts w1 !! bf_head_free_text with
  | None => (Raise KeyError, w1)
  | Some old_free_texts =>
      let free_texts :=
        if String.eqb old_free_texts "" then free_texts
        else (free_texts ++ [old_free_texts])%list in
      (Ok (),
       MkWorld (scene w1) (objects w1) (materials w1)
               (<[bf_head_free_text := join nl free_texts]> (texts w1)))
  end.

(** [sorted(tokens, key=lambda k: k[0] != "SURF_ID")] *)
Definition sorted_by_label (ts : list token) : list token :=
  (List.filter (fun t => String.eqb (fst (fst t)) "SURF_ID") ts ++
   List.filter (fun t => negb (String.eqb (fst (fst t)) "SURF_ID")) ts)%list.

(** The loop of [BFScene.from_fds] over the tokens, with [errors] and
    [free_texts] as it leaves them.  Only a [BFException] of the
    namelist's import is caught. *)
Fixpoint import_namelists (ts : list token) (errors : bool) (free_texts : list string)
  : st world (bool * list string) :=
  match ts with
  | [] => mret (errors, free_texts)
  | (fds_label', fds_params, fds_original) :: ts' =>
      fun w =>
      match get_imported_bf_namelist_cls fds_label' fds_params with
      | Raise err => (Raise err, w)
      | Ok None =>
          import_namelists ts' errors (free_texts ++ [fds_original])%list w
      | Ok (Some bf_namelist_cls) =>
          match get_imported_element bf_namelist_cls fds_label' w with
          | (Raise err, w1) => (Raise err, w1)
          | (Ok h, w1) =>
              match on_element h (BFNamelist_from_fds bf_namelist_cls (Some fds_params)) w1 with
              | (Ok _, w2) => import_namelists ts' errors free_texts w2
              | (Raise (EBF err), w2) =>
                  import_namelists ts' true (free_texts ++ free_texts_of err)%list w2
              | (Raise err, w2) => (Raise err, w2)
              end
          end
      end
  end.

(** The part of [BFScene.from_fds] before the free texts are saved: the
    tokenizer, then the loop. *)
Definition import_document (value : string) : st world (bool * list string) :=
  match tokenize value with
  | Raise (EBF err) => mret (true, free_texts_of err)
  | Raise err => fun w => (Raise err, w)
  | Ok ts => import_namelists (sorted_by_label ts) false []
  end.

(** [BFScene.from_fds] *)
Definition BFScene_from_fds (value : string) : st world unit := fun w =>
  match import_document value w with
  | (Raise err, w1) => (Raise err, w1)
  | (Ok (errors, free_texts), w1) =>
      match save_imported_unmanaged_tokens free_texts w1 with
      | (Raise err, w2) => (Raise err, w2)
      | (Ok _, w2) =>
          if errors : bool then
            (Raise (EBF (BFExc (FromScene (py_str (getattr (scene w2) "name")))
               "Errors reported, see details in HEAD free text file." [])), w2)
          else (Ok (), w2)
      end
  end.
End Scene.

(** ** geometry/utils.py: bounding boxes *)

Module Geometry.

(** A bounding box in xb format is the sequence [x0, x1, y0, y1, z0, z1]
    of Blender's coordinates, which are floats.  [seq[i]] raises
    [IndexError] past the end. *)
Definition item (seq : list float) (i : nat) : result float :=
  match seq !! i with
  | Some x => Ok x
  | None => Raise IndexError
  end.

(** [(p + q - r - s) / 2.] *)
Definition half_diff (p q r s : float) : float :=
  ((p + q - r - s) / 2)%float.

(** [calc_movement_from_bbox1_to_bbox0] *)
Definition calc_movement_from_bbox1_to_bbox0 (bbox0 bbox1 : list float)
  : result (float * float * float) :=
  a0 ← item bbox0 0; a1 ← item bbox0 1; b0 ← item bbox1 0; b1 ← item bbox1 1;
  a2 ← item bbox0 2; a3 ← item bbox0 3; b2 ← item bbox1 2; b3 ← item bbox1 3;
  a4 ← item bbox0 4; a5 ← item bbox0 5; b4 ← item bbox1 4; b5 ← item bbox1 5;
  Ok (half_diff a0 a1 b0 b1, half_diff a2 a3 b2 b3, half_diff a4 a5 b4 b5).

(** The right-hand side of [xb[:] = ...] in [move_xbs]. *)
Definition move_xb (movement : float * float * float) (xb : list float)
  : result (list float) :=
  let '(mx, my, mz) := movement in
  c0 ← item xb 0; c1 ← item xb 1; c2 ← item xb 2;
  c3 ← item xb 3; c4 ← item xb 4; c5 ← item xb 5;
  Ok [c0 + mx; c1 + mx; c2 + my; c3 + my; c4 + mz; c5 + mz]%float.

(** [move_xbs]: the boxes are replaced one after the other; those before a
    raise stay moved. *)
Fixpoint move_xbs (xbs : list (list float)) (movement : float * float * float)
  : result unit * list (list float) :=
  match xbs with
  | [] => (Ok (), [])
  | xb :: rest =>
      match move_xb movement xb with
      | Raise err => (Raise err, xb :: rest)
      | Ok xb' =>
          let '(r, rest') := move_xbs rest movement in (r, xb' :: rest')
      end
  end.

(** The number a float stands for (0 for an infinity or a NaN, which
    [is_finite] tells apart). *)
Definition F2Q (x : float) : Q :=
  match Prim2SF x with
  | S754_finite s m e =>
      let mag := if (0 <=? e)%Z then inject_Z (Z.pos m * 2 ^ e)
                 else Z.pos m # Z.to_pos (2 ^ (- e)) in
      if s then Qopp mag else mag
  | _ => 0%Q
  end.

Definition is_finite (x : float) : bool :=
  match Prim2SF x with
  | S754_zero _ | S754_finite _ _ _ => true
  | _ => false
  end.

(** A float operation that did not round. *)
Definition exact_add (x y : float) : Prop :=
  is_finite (x + y)%float = true /\ (F2Q (x + y)%float == F2Q x + F2Q y)%Q.
Definition exact_sub (x y : float) : Prop :=
  is_finite (x - y)%float = true /\ (F2Q (x - y)%float == F2Q x - F2Q y)%Q.
Definition exact_half (x : float) : Prop :=
  is_finite (x / 2)%float = true /\ (F2Q (x / 2)%float == F2Q x / 2)%Q.

(** The operations of the two functions along one axis, for the bounds
    [p], [q] of [bbox0] and [r], [s] of [bbox1], none of them rounding. *)
Definition exact_axis (p q r s : float) : Prop :=
  exact_add p q /\ exact_sub (p + q)%float r /\ exact_sub (p + q - r)%float s /\
  exact_half (p + q - r - s)%float /\
  exact_add r (half_diff p q r s) /\ exact_add s (half_diff p q r s).

(** Centre and size of an interval, as numbers. *)
Definition centre (lo hi : float) : Q := ((F2Q lo + F2Q hi) / 2)%Q.
Definition size (lo hi : float) : Q := (F2Q hi - F2Q lo)%Q.

End Geometry.

(** ** BFScene: export of the scene itself *)

(** [s[-1:]]: the last character, none for the empty string. *)
Fixpoint last_char (s : string) : option ascii :=
  match s with
  | EmptyString => None
  | String a EmptyString => Some a
  | String _ s' => last_char s'
  end.

Section SceneExport.
Context `{Builtins}.

(** The loop of [BFScene._myself_to_fds] over the instances the property
    [bf_namelists] of the scene gives.  An exception of a namelist is not
    caught. *)
Fixpoint namelists_to_fds (bf_namelists : list instance) (e : element)
    (bodies : list string) : result (list string) :=
  match bf_namelists with
  | [] => Ok bodies
  | bf_namelist :: rest =>
      body ← (BFNamelist_to_fds bf_namelist e).1;
      namelists_to_fds rest e
        match str_truthy body with
        | Some s => (bodies ++ [s])%list
        | None => bodies
        end
  end.

(** [BFScene._myself_to_fds] *)
Definition myself_to_fds (bf_namelists : list instance) (e : element)
  : result (list string) :=
  bodies ← namelists_to_fds bf_namelists e [];
  Ok match bodies with
     | [] => []
     | _ => (bodies ++ [nl])%list
     end.

(** [BFScene._free_text_to_fds], for the scene's string property
    [bf_head_free_text] and the text blocks [bpy.data.texts], whose
    subscript raises [KeyError] when there is no block of that name. *)
Definition free_text_to_fds (bf_head_free_text : string) (texts : gmap string string)
  : result (list string) :=
  if String.eqb bf_head_free_text "" then Ok [] else
  match texts !! bf_head_free_text with
  | None => Raise KeyError
  | Some free_text =>
      if String.eqb free_text "" then Ok [] else
      let bodies :=
        ["! --- Free text: '" +:+ bf_head_free_text +:+ "'" +:+ nl; free_text] in
      Ok (if match last_char free_text with
             | Some a => Ascii.eqb a (ascii_of_nat 10)
             | None => false
             end
          then bodies else (bodies ++ [nl])%list)
  end.
End SceneExport.

(** * Vocabulary of the properties *)


Definition quoted (s : string) : string := "'" +:+ s +:+ "'".

(** A check that raises a [BFException]. *)
Definition raises_bf (r : result unit) : Prop :=
  exists msg, exists errors, exists snd, r = Raise (EBF (BFExc snd msg errors)).

(** The quote characters [BFStringProp.check] refuses, and the characters
    [BFFreeProp.check] refuses whatever their number. *)
Definition has_quote (s : string) : bool :=
  contains "'" s || (contains dquote s || (contains "`" s || (contains ldquo s ||
  (contains rdquo s || (contains lsquo s || contains rsquo_zwnj s))))).

Definition has_bad_quote (s : string) : bool :=
  contains "`" s || (contains lsquo s || (contains rsquo_zwnj s ||
  (contains dquote s || contains rdquo s))).

(** An outcome that is a result or a [BFException], the one exception
    [BFNamelist.to_fds] catches. *)
Definition caught {A} (r : result A) : bool :=
  match r with
  | Ok _ | Raise (EBF _) => true
  | Raise _ => false
  end.

Definition error_of {A} (r : result A) : option exn :=
  match r with
  | Raise err => Some err
  | Ok _ => None
  end.

(** The text kept for a token no property of the namelist manages. *)
Definition unmanaged_text (c : BFClass) (kv : string * (value * string)) : option string :=
  match get_by_fds_label (all_bf_props c) kv.1 with
  | Some _ => None
  | None => Some (kv.1 +:+ "=" +:+ kv.2.2)
  end.

Definition unmanaged_texts (c : BFClass) (t : tokens) : list string :=
  omap (unmanaged_text c) t.

(** A step that leaves the text blocks alone. *)
Definition keeps_texts {A} (m : st world A) : Prop :=
  forall w, texts (m w).2 = texts w.

(** What the free text file holds once the unmanaged texts of an import
    are merged with what it held. *)
Definition merged (free_texts : list string) (old_free_texts : string) : string :=
  join nl (free_texts ++ (if String.eqb old_free_texts "" then [] else [old_free_texts]))%list.

(** ** Fixed-point numerals, in the spec's words

    What it is for a string to be the fixed-point rendering of a float with
    [p] decimals, said without the code that renders: the string is an
    optional minus sign, the digits of an integer part without needless
    zeros and, when [p] is not 0, a point and exactly [p] digits; read as
    a whole number its digits give the magnitude of the float scaled by
    [10 ^ p] and rounded to the nearest integer, to the even one when
    halfway. *)







Section Vocabulary.
Context `{Builtins}.

(** What [format] gives without a label: the bare rendering. *)
Definition unprefixed (c : BFClass) (v : value) (s : string) : Prop :=
  match base c with
  | BFStringProp | BFFreeProp => s = py_str v
  | BFProp | BFNamelist => render_values c v (values_of v) = Ok (Some s)
  end.

(** The errors the properties raise at [e], in the order of [bf_props];
    the strings and infos of those that do not raise; the instances
    after each has been exported. *)
Definition child_errors (ps : list instance) (e : element) : list exn :=
  omap (fun p => error_of (BFProp_to_fds p e).1) ps.

Definition child_params (ps : list instance) (e : element) : list string :=
  omap (fun p => match (BFProp_to_fds p e).1 with
                 | Ok param => str_truthy param
                 | Raise _ => None
                 end) ps.

Definition child_infos (ps : list instance) (e : element) : list value :=
  mjoin (map (fun p => match BFProp_to_fds p e with
                       | (Ok _, p') => infos_of p'
                       | (Raise _, _) => []
                       end) ps).

Definition exported (ps : list instance) (e : element) : list instance :=
  map (fun p => (BFProp_to_fds p e).2) ps.


End Vocabulary.

(** A class with its export property. *)
Definition with_export (p : BFClass) : list BFClass :=
  p :: match bf_prop_export p with Some x => [x] | None => [] end.

(** The attribute names the import of a namelist may assign: the
    [bpy_idname] of the class, of every class of its [all_bf_props], and of
    the export property of each of them. *)
Definition managed_idnames (c : BFClass) : list string :=
  omap (fun p => str_truthy (bpy_idname p)) (flat_map with_export (c :: all_bf_props c)).

(** A step that leaves the attribute [k] alone. *)
Definition keeps (k : string) {A} (m : io A) : Prop :=
  forall e, getattr (m e).2 k = getattr e k.

(** A step that raises no [BFException]. *)
Definition foreign_only {S A} (m : st S A) : Prop :=
  forall s b, (m s).1 <> Raise (EBF b).

(** A token of a document that the import of a scene keeps as free text:
    no namelist class of the registry has its label, and none of its
    parameters is one of the geometry. *)
Definition unmanaged_namelist (all : list BFClass) (tk : token) : Prop :=
  get_by_fds_label all tk.1.1 = None /\
  forall kv, kv ∈ tk.1.2 -> kv.1 ∉ ["XB"; "XYZ"; "PBX"; "PBY"; "PBZ"].

(** The objects [po] and the materials [pm] are still there, as they
    were, at the head of the data; a handle beyond them refers to none of
    them. *)
Definition kept (po pm : list element) (w : world) : Prop :=
  po `prefix_of` objects w /\ pm `prefix_of` materials w.

Definition beyond (po pm : list element) (h : handle) : Prop :=
  match h with
  | HScene => True
  | HObject i => (length po <= i)%nat
  | HMaterial i => (length pm <= i)%nat
  end.

(** A step of the import on a new element: it answers a handle beyond the
    elements kept, and keeps them. *)
Definition creates (po pm : list element) (m : st world handle) : Prop :=
  forall w, kept po pm w ->
    kept po pm (m w).2 /\ forall h, (m w).1 = Ok h -> beyond po pm h.

(** The records of the namelists that give one at [e]. *)
Definition namelist_bodies `{Builtins} (ns : list instance) (e : element) : list string :=
  omap (fun n => match (BFNamelist_to_fds n e).1 with
                 | Ok body => str_truthy body
                 | Raise _ => None
                 end) ns.

(** * Sample descriptors

    Concrete descriptor classes in the manner of BlenderFDS's, elements and
    a document, for the examples that close the file. *)

Module Samples.

(** Renderings standing for [repr] of a float and of a string: no example
    below sends a value through them. *)
#[export] Instance plain_repr : Builtins :=
  {| float_repr := fun x => fixed_sf 1 (Prim2SF x); str_repr := quoted |}.

(** A Blender that takes every assignment. *)
#[export] Instance any_assignment : Blender :=
  {| bpy_accepts := fun _ _ _ => true |}.

Definition descriptor (name : string) (b : base_cls) (label : option string)
    (default : value) (idname : option string) : BFClass :=
  {| cls_name := name; base := b; fds_label := label; fds_default := default;
     fds_separator := " "; bf_prop_export := None; bf_props := [];
     bpy_type := Some Object; bpy_idname := idname; bpy_default := VNone;
     bpy_precision := None; bf_draw_type := None; check_override := None |}.

Definition OP_export : BFClass :=
  {| cls_name := "OP_export"; base := BFProp; fds_label := None; fds_default := VNone;
     fds_separator := " "; bf_prop_export := None; bf_props := [];
     bpy_type := Some Object; bpy_idname := Some "bf_export";
     bpy_default := VBool false; bpy_precision := None; bf_draw_type := None;
     check_override := None |}.

Definition OP_ID : BFClass := descriptor "OP_ID" BFProp (Some "ID") VNone (Some "bf_id").
Definition OP_FYI : BFClass :=
  descriptor "OP_FYI" BFStringProp (Some "FYI") (VStr "") (Some "bf_fyi").
Definition OP_COLOR : BFClass :=
  descriptor "OP_COLOR" BFProp (Some "COLOR") VNone (Some "bf_color").
Definition OP_free : BFClass :=
  descriptor "OP_free" BFFreeProp None (VStr "") (Some "bf_free").

Definition ON_OBST : BFClass :=
  {| cls_name := "ON_OBST"; base := BFNamelist; fds_label := Some "OBST";
     fds_default := VNone; fds_separator := " ";
     bf_prop_export := Some OP_export;
     bf_props := [OP_ID; OP_FYI; OP_COLOR; OP_free];
     bpy_type := Some Object; bpy_idname := None; bpy_default := VNone;
     bpy_precision := None; bf_draw_type := Some "SOLID"; check_override := None |}.

(** An object with every registered property, as Blender has it. *)
Definition obstacle : element :=
  <["bf_export" := VBool true]> (<["bf_id" := VStr "example"]>
  (<["bf_fyi" := VStr ""]> (<["bf_color" := VTuple [VInt 3; VInt 4; VInt 5]]>
  (<["bf_free" := VStr ""]> ∅)))).

(** The obstacle with a description and free parameters that fail their
    checks. *)
Definition faulty : element :=
  <["bf_fyi" := VStr "walls & floor"]> (<["bf_free" := VStr "A='it's'"]> obstacle).

(** A property whose check appends an info, as the docstring of [check]
    has it, and a namelist of it. *)
Definition OP_XB_info : BFClass :=
  {| cls_name := "OP_XB"; base := BFProp; fds_label := Some "XB"; fds_default := VNone;
     fds_separator := " "; bf_prop_export := None; bf_props := [];
     bpy_type := Some Object; bpy_idname := Some "bf_xb"; bpy_default := VNone;
     bpy_precision := None; bf_draw_type := None;
     check_override := Some (fun _ => ([VStr "1 voxel"], Ok ())) |}.

Definition ON_VENT : BFClass :=
  {| cls_name := "ON_VENT"; base := BFNamelist; fds_label := Some "VENT";
     fds_default := VNone; fds_separator := " ";
     bf_prop_export := None; bf_props := [OP_XB_info];
     bpy_type := Some Object; bpy_idname := None; bpy_default := VNone;
     bpy_precision := None; bf_draw_type := None; check_override := None |}.

Definition vent : element := <["bf_xb" := VStr "BBOX"]> ∅.

(** A document of two namelists, as a tokenizer would hand it over: an
    obstacle with a parameter of its own and one that is not managed, and a
    namelist that no class manages. *)
Definition document : list token :=
  [("OBST", [("ID", (VStr "wall", "'wall'")); ("THICKEN", (VBool true, ".TRUE."))],
    "&OBST ID='wall' THICKEN=.TRUE. /");
   ("DUMP", [("NFRAMES", (VInt 100, "100"))], "&DUMP NFRAMES=100 /")].

(** The free text file is the text block named by the scene's
    [bf_head_free_text], made empty when there is none of that name. *)
#[export] Instance fds : Fds :=
  {| tokenize := fun text => if String.eqb text "" then Ok [] else Ok document;
     free_texts_of := fun _ => [];
     set_free_text_file := fun w =>
       let name := match getattr (scene w) "bf_head_free_text" with
                   | VStr s => s
                   | _ => "HEAD free text"
                   end in
       match texts w !! name with
       | Some _ => (name, w)
       | None =>
           (name, MkWorld (<["bf_head_free_text" := VStr name]> (scene w))
                          (objects w) (materials w) (<[name := ""]> (texts w)))
       end |}.

Definition case : world :=
  {| scene := <["name" := VStr "Case"]> (<["bf_head_free_text" := VStr "notes"]> ∅);
     objects := []; materials := [];
     texts := <["notes" := "&MISC TMPA=25. /"]> ∅ |}.

(** A property with a default and an export flag of its own. *)
Definition OP_THICKEN_export : BFClass :=
  {| cls_name := "OP_THICKEN_export"; base := BFProp; fds_label := None;
     fds_default := VNone; fds_separator := " "; bf_prop_export := None; bf_props := [];
     bpy_type := Some Object; bpy_idname := Some "bf_thicken_export";
     bpy_default := VBool false; bpy_precision := None; bf_draw_type := None;
     check_override := None |}.

Definition OP_THICKEN : BFClass :=
  {| cls_name := "OP_THICKEN"; base := BFProp; fds_label := Some "THICKEN";
     fds_default := VBool false; fds_separator := " ";
     bf_prop_export := Some OP_THICKEN_export; bf_props := [];
     bpy_type := Some Object; bpy_idname := Some "bf_thicken";
     bpy_default := VBool false; bpy_precision := None; bf_draw_type := None;
     check_override := None |}.

(** A namelist that takes its label from its parameters. *)
Definition ON_free : BFClass :=
  {| cls_name := "ON_free"; base := BFNamelist; fds_label := None;
     fds_default := VNone; fds_separator := " ";
     bf_prop_export := Some OP_export; bf_props := [OP_free];
     bpy_type := Some Object; bpy_idname := None; bpy_default := VNone;
     bpy_precision := None; bf_draw_type := None; check_override := None |}.

(** The obstacle without a description, and with a name that the import
    does not manage. *)
Definition undescribed : element := <["bf_fyi" := VNone]> obstacle.

Definition named : element := <["name" := VStr "Cube"]> obstacle.

(** The faulty obstacle without a description. *)
Definition unchecked : element := <["bf_fyi" := VNone]> faulty.

(** A Blender whose colour takes no string. *)
Definition no_string_colour : Blender :=
  {| bpy_accepts := fun _ name v =>
       negb (String.eqb name "bf_color" && match v with VStr _ => true | _ => false end) |}.

(** Two namelists of the scene, and a scene. *)
Definition SP_CHID : BFClass :=
  {| cls_name := "SP_HEAD_CHID"; base := BFStringProp; fds_label := Some "CHID";
     fds_default := VNone; fds_separator := " "; bf_prop_export := None; bf_props := [];
     bpy_type := Some Scene; bpy_idname := Some "name"; bpy_default := VNone;
     bpy_precision := None; bf_draw_type := None; check_override := None |}.

Definition SN_HEAD : BFClass :=
  {| cls_name := "SN_HEAD"; base := BFNamelist; fds_label := Some "HEAD";
     fds_default := VNone; fds_separator := " "; bf_prop_export := None;
     bf_props := [SP_CHID];
     bpy_type := Some Scene; bpy_idname := None; bpy_default := VNone;
     bpy_precision := None; bf_draw_type := None; check_override := None |}.

Definition SP_T_END : BFClass :=
  {| cls_name := "SP_TIME_T_END"; base := BFProp; fds_label := Some "T_END";
     fds_default := VNone; fds_separator := " "; bf_prop_export := None; bf_props := [];
     bpy_type := Some Scene; bpy_idname := Some "bf_time_t_end"; bpy_default := VFloat 0;
     bpy_precision := Some 1%nat; bf_draw_type := None; check_override := None |}.

Definition SN_TIME : BFClass :=
  {| cls_name := "SN_TIME"; base := BFNamelist; fds_label := Some "TIME";
     fds_default := VNone; fds_separator := " "; bf_prop_export := None;
     bf_props := [SP_T_END];
     bpy_type := Some Scene; bpy_idname := None; bpy_default := VNone;
     bpy_precision := None; bf_draw_type := None; check_override := None |}.

Definition plan : element :=
  <["name" := VStr "a&b"]> (<["bf_time_t_end" := VFloat 10]> ∅).

(** A Blender without the render engine [CYCLES], and a document of a
    namelist that no class manages followed by a [HEAD]. *)
Definition no_cycles : Blender :=
  {| bpy_accepts := fun _ name _ => negb (String.eqb name "render.engine") |}.

Definition dump_then_head : Fds :=
  {| tokenize := fun text =>
       Ok [("DUMP", [("NFRAMES", (VInt 100, "100"))], "&DUMP NFRAMES=100 /");
           ("HEAD", [("CHID", (VStr "case", "'case'"))], "&HEAD CHID='case' /")];
     free_texts_of := fun _ => [];
     set_free_text_file := set_free_text_file |}.

(** A tokenizer that takes no document. *)
Definition unreadable : Fds :=
  {| tokenize := fun text =>
       Raise (EBF (BFExc (FromScene "tokenize") "Unrecognized FDS syntax" []));
     free_texts_of := fun _ => ["! Unrecognized FDS syntax"];
     set_free_text_file := set_free_text_file |}.

End Samples.

(** * Properties *)

(** ** Rendering of a property value *)

Lemma prefix_append (a b : string) : String.prefix a (a +:+ b) = true.
Proof.
  induction a as [|x a IH]; [destruct b; reflexivity|].
  change (String x a +:+ b) with (String x (a +:+ b)).
  change (String.prefix (String x a) (String x (a +:+ b)))
    with (if ascii_dec x x then String.prefix a (a +:+ b) else false).
  destruct (ascii_dec x x); [exact IH | congruence].
Qed.

(** *** Fixed-point numerals *)





















Section FormatProps.
Context `{Builtins}.










End FormatProps.

(** ** Export of a property *)

Lemma append_assoc (a b c : string) : (a +:+ b) +:+ c = a +:+ (b +:+ c).
Proof.
  induction a as [|x a IH]; [reflexivity|].
  change (String x a +:+ b) with (String x (a +:+ b)).
  change (String x (a +:+ b) +:+ c) with (String x ((a +:+ b) +:+ c)).
  rewrite IH. reflexivity.
Qed.

Section ExportProps.
Context `{Builtins}.

Lemma BFProp_to_fds_not_exported i e :
  get_exported (cls_of i) e = false -> BFProp_to_fds i e = (Ok None, i).
Proof. unfold BFProp_to_fds. intros ->. reflexivity. Qed.

Lemma BFProp_to_fds_exported i e :
  get_exported (cls_of i) e = true ->
  BFProp_to_fds i e
  = (_ ← (check (cls_of i) e).2; format (cls_of i) (get_value (cls_of i) e),
     Inst (cls_of i) (infos_of i ++ (check (cls_of i) e).1)%list (props_of i)).
Proof.
  unfold BFProp_to_fds. intros ->. cbn.
  destruct (check (cls_of i) e) as [added checked]. reflexivity.
Qed.

Lemma format_some c v s :
  format c v = Ok (Some s) ->
  match str_truthy (fds_label c) with
  | Some l => String.prefix (l +:+ "=") s = true
  | None => unprefixed c v s
  end.
Proof.
  assert (Hbase : BFProp_format c v = Ok (Some s) ->
    match str_truthy (fds_label c) with
    | Some l => String.prefix (l +:+ "=") s = true
    | None => render_values c v (values_of v) = Ok (Some s)
    end).
  { unfold BFProp_format. intros Hf.
    assert (Hr : (r ← render_values c v (values_of v);
                  Ok (option_map (label_prefix c) r)) = Ok (Some s))
      by (destruct v; first [discriminate | exact Hf]).
    clear Hf. destruct (render_values c v (values_of v)) as [[r|]|];
      cbn in Hr; try discriminate.
    injection Hr as <-. unfold label_prefix.
    destruct (str_truthy (fds_label c)) as [lbl|]; [|reflexivity].
    rewrite <- (append_assoc lbl "="). apply prefix_append. }
  assert (Hstr : BFStringProp_format c v = Ok (Some s) ->
    match str_truthy (fds_label c) with
    | Some l => String.prefix (l +:+ "=") s = true
    | None => s = py_str v
    end).
  { unfold BFStringProp_format. destruct (truthy v); [|discriminate].
    destruct (str_truthy (fds_label c)) as [lbl|]; intros [= <-]; [|reflexivity].
    change (lbl +:+ "='" +:+ py_str v +:+ "'")
      with (lbl +:+ "=" +:+ ("'" +:+ py_str v +:+ "'")).
    rewrite <- (append_assoc lbl "="). apply prefix_append. }
  unfold format, unprefixed. destruct (base c); assumption.
Qed.

(** C1 (as amended).  A property that is not exported gives [None]; an
    exported one is checked, then formatted, so it raises when the check
    raises and gives [None] when [format] does (a [None] or empty value).
    A string is only returned by an exported property; it starts with
    [fds_label] and ["="] when [fds_label] is set (neither [None] nor
    empty), and is the bare rendering of the value otherwise. *)
Theorem BFProp_to_fds_export (i : instance) (e : element) :
  (get_exported (cls_of i) e = false -> (BFProp_to_fds i e).1 = Ok None)
  /\ (get_exported (cls_of i) e = true ->
      (BFProp_to_fds i e).1
      = (_ ← (check (cls_of i) e).2; format (cls_of i) (get_value (cls_of i) e)))
  /\ (forall s, (BFProp_to_fds i e).1 = Ok (Some s) ->
      get_exported (cls_of i) e = true
      /\ match str_truthy (fds_label (cls_of i)) with
         | Some l => String.prefix (l +:+ "=") s = true
         | None => unprefixed (cls_of i) (get_value (cls_of i) e) s
         end).
Proof.
  repeat apply conj.
  - intros Hx. rewrite BFProp_to_fds_not_exported by exact Hx. reflexivity.
  - intros Hx. rewrite BFProp_to_fds_exported by exact Hx. reflexivity.
  - intros s Hs.
    destruct (get_exported (cls_of i) e) eqn:Hx.
    + split; [reflexivity|].
      rewrite BFProp_to_fds_exported in Hs by exact Hx. cbn in Hs.
      destruct (check (cls_of i) e).2 as [[]|err]; [|discriminate].
      apply format_some. exact Hs.
    + rewrite BFProp_to_fds_not_exported in Hs by exact Hx. discriminate.
Qed.
End ExportProps.

(** ** Validation of string properties *)

Lemma or_else_ok (a b : bool) : or_else (Ok a) (Ok b) = Ok (a || b).
Proof. destruct a; reflexivity. Qed.

Lemma BFStringProp_check_str c e s :
  get_value c e = VStr s ->
  BFStringProp_check c e =
    if contains "&" s || contains "/" s
    then raise_bf c "& and / characters not allowed" []
    else if contains "#" s
    then raise_bf c "Some special characters are not allowed (eg. #)" []
    else if has_quote s
    then raise_bf c "Quote characters not allowed" []
    else Ok ().
Proof.
  intros Hv. unfold BFStringProp_check. rewrite Hv. unfold py_in.
  rewrite !or_else_ok. cbn.
  destruct (contains "&" s || contains "/" s); [reflexivity|].
  destruct (contains "#" s); [reflexivity|].
  fold (has_quote s). destruct (has_quote s); reflexivity.
Qed.

Lemma BFFreeProp_check_str c e s :
  get_value c e = VStr s ->
  BFFreeProp_check c e =
    if contains "&" s || contains "/" s
    then raise_bf c "& and / characters not allowed" []
    else if contains "#" s
    then raise_bf c "Some special characters are not allowed (eg. #)" []
    else if has_bad_quote s || negb (Nat.even (count_char "'" s))
    then raise_bf c "Only use matched single quotes as 'string' delimiters" []
    else Ok ().
Proof.
  intros Hv. unfold BFFreeProp_check. rewrite Hv. unfold py_in, py_count_quote.
  change (n ← Ok (count_char "'" s); Ok (negb (Nat.even n)))
    with (Ok (A:=bool) (negb (Nat.even (count_char "'" s)))).
  rewrite !or_else_ok. cbn.
  destruct (contains "&" s || contains "/" s); [reflexivity|].
  destruct (contains "#" s); [reflexivity|].
  unfold has_bad_quote. rewrite <- !orb_assoc.
  destruct (_ || _); reflexivity.
Qed.

Lemma raise_bf_raises c msg errors : raises_bf (raise_bf c msg errors).
Proof. unfold raises_bf, raise_bf. eauto. Qed.

(** C7 (as amended).  A string property ([BFStringProp], [BFFYIProp],
    [BFFreeProp]) holding a string with ["&"], ["/"] or ["#"] fails its
    check.  For a [BFFreeProp], a string with an odd number of single
    quotes, so with exactly one, fails it, and one with an even number
    passes unless it holds another refused character.  For a
    [BFStringProp] every single quote is refused, whatever their number. *)
Theorem string_checks (c : BFClass) (e : element) (s : string) :
  check_override c = None ->
  get_value c e = VStr s ->
  (base c = BFStringProp \/ base c = BFFreeProp ->
   contains "&" s || contains "/" s || contains "#" s = true ->
   raises_bf (check c e).2)
  /\ (base c = BFFreeProp -> count_char "'" s = 1%nat -> raises_bf (check c e).2)
  /\ (base c = BFFreeProp -> Nat.odd (count_char "'" s) = true ->
      raises_bf (check c e).2)
  /\ (base c = BFFreeProp -> Nat.even (count_char "'" s) = true ->
      contains "&" s || contains "/" s || contains "#" s || has_bad_quote s = false ->
      (check c e).2 = Ok ())
  /\ (base c = BFStringProp -> contains "'" s = true -> raises_bf (check c e).2).
Proof.
  intros Hov Hv.
  assert (Hodd : base c = BFFreeProp -> Nat.odd (count_char "'" s) = true ->
                 raises_bf (check c e).2).
  { intros Hb Hq. unfold check. rewrite Hov, Hb. cbn.
    rewrite (BFFreeProp_check_str _ _ _ Hv).
    rewrite <- Nat.negb_even in Hq. rewrite Hq, orb_true_r.
    destruct (_ || _); [apply raise_bf_raises|].
    destruct (contains "#" s); apply raise_bf_raises. }
  repeat apply conj.
  - intros Hb Hbad. unfold check. rewrite Hov.
    apply orb_true_iff in Hbad as [Hbad|Hbad].
    + destruct Hb as [-> | ->]; cbn;
        [rewrite (BFStringProp_check_str _ _ _ Hv)
        |rewrite (BFFreeProp_check_str _ _ _ Hv)];
        rewrite Hbad; apply raise_bf_raises.
    + destruct Hb as [-> | ->]; cbn;
        [rewrite (BFStringProp_check_str _ _ _ Hv)
        |rewrite (BFFreeProp_check_str _ _ _ Hv)];
        rewrite Hbad; destruct (_ || _); apply raise_bf_raises.
  - intros Hb Hq. apply Hodd; [exact Hb|]. rewrite Hq. reflexivity.
  - exact Hodd.
  - intros Hb Hq Hbad. unfold check. rewrite Hov, Hb. cbn.
    rewrite (BFFreeProp_check_str _ _ _ Hv).
    apply orb_false_iff in Hbad as [Hbad Hbq].
    apply orb_false_iff in Hbad as [Hbad Hhash].
    rewrite Hbad, Hhash, Hbq, Hq. reflexivity.
  - intros Hb Hq. unfold check. rewrite Hov, Hb. cbn.
    rewrite (BFStringProp_check_str _ _ _ Hv).
    unfold has_quote. rewrite Hq. cbn.
    destruct (_ || _); [apply raise_bf_raises|].
    destruct (contains "#" s); apply raise_bf_raises.
Qed.

(** ** Export of a namelist *)

Section NamelistExport.
Context `{Builtins}.

Lemma export_props_all ps e : forall params errors infos,
  Forall (fun p => caught (BFProp_to_fds p e).1 = true) ps ->
  export_props ps e params errors infos
  = (Ok ((params ++ child_params ps e)%list, (errors ++ child_errors ps e)%list),
     (infos ++ child_infos ps e)%list, exported ps e).
Proof.
  induction ps as [|p ps IH]; intros params errors infos Hc.
  - cbn. rewrite !app_nil_r. reflexivity.
  - inversion Hc as [|? ? Hp Hps]; subst.
    cbn [export_props].
    unfold child_params, child_errors, child_infos, exported.
    cbn [omap list_omap map mjoin list_join].
    fold (child_params ps e) (child_errors ps e) (child_infos ps e) (exported ps e).
    destruct (BFProp_to_fds p e) as [r p'] eqn:Hr. cbn [fst snd] in *.
    destruct r as [param|err].
    + rewrite IH by exact Hps. cbn [error_of].
      destruct (str_truthy param) as [s|]; cbn;
        rewrite <- ?app_assoc; reflexivity.
    + destruct err; try discriminate Hp.
      rewrite IH by exact Hps. cbn. rewrite <- ?app_assoc. reflexivity.
Qed.

Lemma export_props_prefix ps1 rest e : forall params errors infos,
  Forall (fun p => caught (BFProp_to_fds p e).1 = true) ps1 ->
  export_props (ps1 ++ rest) e params errors infos
  = let '(r, infos', rest') :=
      export_props rest e (params ++ child_params ps1 e)%list
        (errors ++ child_errors ps1 e)%list (infos ++ child_infos ps1 e)%list in
    (r, infos', (exported ps1 e ++ rest')%list).
Proof.
  induction ps1 as [|p ps IH]; intros params errors infos Hc.
  - cbn [app]. unfold child_params, child_errors, child_infos, exported. cbn.
    rewrite !app_nil_r.
    destruct (export_props rest e params errors infos) as [[r infos'] rest'].
    reflexivity.
  - inversion Hc as [|? ? Hp Hps]; subst.
    cbn [app export_props].
    unfold child_params, child_errors, child_infos, exported.
    cbn [omap list_omap map mjoin list_join].
    fold (child_params ps e) (child_errors ps e) (child_infos ps e) (exported ps e).
    destruct (BFProp_to_fds p e) as [r p'] eqn:Hr. cbn [fst snd] in *.
    destruct r as [param|err].
    + rewrite IH by exact Hps. cbn [error_of].
      destruct (str_truthy param) as [s|]; cbn [app];
        rewrite <- ?app_assoc; cbn [app];
        destruct (export_props rest e _ _ _) as [[r' infos'] rest']; reflexivity.
    + destruct err; try discriminate Hp.
      rewrite IH by exact Hps. cbn [error_of app]. rewrite <- ?app_assoc. cbn [app].
      destruct (export_props rest e _ _ _) as [[r' infos'] rest']; reflexivity.
Qed.

(** C2.  When an exported namelist whose own check passes exports its
    properties and at least one of them raises, then, as long as what the
    properties raise is the error of the engine, [BFException], every
    property has been exported (each instance is as its own [to_fds]
    leaves it) and the namelist raises one [BFException] that nests the
    errors of all the properties that raised, in order; it returns no
    string.  An exception of another kind is not caught: the export stops
    at the first property that raises one, with that exception. *)
Theorem BFNamelist_to_fds_collects_errors (i : instance) (e : element) :
  get_exported (cls_of i) e = true ->
  (check (cls_of i) e).2 = Ok () ->
  (Forall (fun p => caught (BFProp_to_fds p e).1 = true) (props_of i) ->
   Exists (fun p => exists err, (BFProp_to_fds p e).1 = Raise err) (props_of i) ->
   (BFNamelist_to_fds i e).1
     = Raise (EBF (BFExc (sender_of (cls_of i)) "Following errors reported"
                     (child_errors (props_of i) e)))
   /\ (forall p err, p ∈ props_of i -> (BFProp_to_fds p e).1 = Raise err ->
       err ∈ child_errors (props_of i) e)
   /\ child_errors (props_of i) e <> []
   /\ props_of (BFNamelist_to_fds i e).2 = exported (props_of i) e)
  /\ (forall ps1 p ps2 err,
        props_of i = (ps1 ++ p :: ps2)%list ->
        Forall (fun q => caught (BFProp_to_fds q e).1 = true) ps1 ->
        (BFProp_to_fds p e).1 = Raise err ->
        caught (Raise err : result (option string)) = false ->
        (BFNamelist_to_fds i e).1 = Raise err).
Proof.
  intros Hx Hck. split.
  - intros Hc Hex.
    assert (Hin : forall p err, p ∈ props_of i -> (BFProp_to_fds p e).1 = Raise err ->
                  err ∈ child_errors (props_of i) e).
    { intros p err Hp Hr. unfold child_errors. apply list_elem_of_omap.
      exists p. split; [exact Hp|]. rewrite Hr. reflexivity. }
    assert (Hne : child_errors (props_of i) e <> []).
    { apply Exists_exists in Hex as (p & Hp & err & Hr).
      intros Hnil. specialize (Hin p err Hp Hr). rewrite Hnil in Hin.
      inversion Hin. }
    unfold BFNamelist_to_fds. rewrite Hx. cbn [negb].
    destruct (check (cls_of i) e) as [added checked]. cbn [snd] in Hck. subst checked.
    rewrite export_props_all by exact Hc. cbn [app].
    destruct (child_errors (props_of i) e) as [|err errs]; [congruence|].
    repeat apply conj; [reflexivity | exact Hin | discriminate | reflexivity].
  - intros ps1 p ps2 err Hps Hc Hp Hf.
    unfold BFNamelist_to_fds. rewrite Hx. cbn [negb].
    destruct (check (cls_of i) e) as [added checked]. cbn [snd] in Hck. subst checked.
    rewrite Hps, export_props_prefix by exact Hc. cbn [export_props].
    destruct (BFProp_to_fds p e) as [r p']. cbn [fst snd] in *. subst r.
    destruct err; try discriminate Hf; reflexivity.
Qed.
End NamelistExport.

(** ** Exporting a namelist twice *)

Section Idempotence.
Context `{Builtins}.

Lemma new_infos c : infos_of (new c) = [].
Proof. destruct c; reflexivity. Qed.

Lemma new_cls c : cls_of (new c) = c.
Proof. destruct c; reflexivity. Qed.

Lemma new_props c : props_of (new c) = map new (bf_props c).
Proof. destruct c; reflexivity. Qed.

Lemma check_inherited_quiet c e : check_override c = None -> (check c e).1 = [].
Proof. unfold check. intros ->. destruct (base c); reflexivity. Qed.

Lemma BFProp_to_fds_quiet p e :
  (check (cls_of p) e).1 = [] -> (BFProp_to_fds p e).2 = p.
Proof.
  intros Hq. unfold BFProp_to_fds.
  destruct (get_exported (cls_of p) e); [|reflexivity]. cbn [negb].
  destruct (check (cls_of p) e) as [added checked]. cbn [fst snd] in *. subst added.
  rewrite app_nil_r. destruct p; reflexivity.
Qed.

Lemma export_props_quiet ps e : forall params errors infos,
  Forall (fun p => infos_of p = [] /\ (check (cls_of p) e).1 = []) ps ->
  (export_props ps e params errors infos).1.2 = infos
  /\ (export_props ps e params errors infos).2 = ps.
Proof.
  induction ps as [|p ps IH]; intros params errors infos Hq; [split; reflexivity|].
  inversion Hq as [|? ? [Hi Hc] Hps]; subst.
  cbn [export_props].
  pose proof (BFProp_to_fds_quiet p e Hc) as Hp.
  destruct (BFProp_to_fds p e) as [r p']. cbn [snd] in Hp. subst p'.
  destruct r as [param|err].
  - match goal with
    | |- context [export_props ps e ?a ?b ?c] =>
        destruct (IH a b c Hps) as [IH1 IH2];
        destruct (export_props ps e a b c) as [[r' infos'] ps']
    end.
    cbn [fst snd] in *. subst. rewrite Hi, app_nil_r. split; reflexivity.
  - destruct err; try (split; reflexivity).
    match goal with
    | |- context [export_props ps e ?a ?b ?c] =>
        destruct (IH a b c Hps) as [IH1 IH2];
        destruct (export_props ps e a b c) as [[r' infos'] ps']
    end.
    cbn [fst snd] in *. subst. split; reflexivity.
Qed.

Lemma BFNamelist_to_fds_quiet c e :
  (check c e).1 = [] ->
  Forall (fun p => (check p e).1 = []) (bf_props c) ->
  (BFNamelist_to_fds (new c) e).2 = new c.
Proof.
  intros Hq Hqs. unfold BFNamelist_to_fds. rewrite new_cls, new_infos, new_props.
  destruct (get_exported c e); [|reflexivity]. cbn [negb].
  destruct (check c e) as [added checked]. cbn [fst] in Hq. subst added. cbn [app].
  assert (Hall : Forall (fun p => infos_of p = [] /\ (check (cls_of p) e).1 = [])
                        (map new (bf_props c))).
  { apply Forall_map. eapply Forall_impl; [exact Hqs|].
    intros p Hp. cbn. rewrite new_infos, new_cls. split; [reflexivity|exact Hp]. }
  destruct checked as [[]|err].
  - destruct (export_props_quiet _ e [] [] [] Hall) as [H1 H2].
    destruct (export_props (map new (bf_props c)) e [] [] []) as [[r infos1] props'].
    cbn [fst snd] in *. subst.
    assert (Hn : Inst c [] (map new (bf_props c)) = new c) by (destruct c; reflexivity).
    rewrite Hn.
    destruct r as [[params [|err errs]]|err]; reflexivity.
  - destruct c; reflexivity.
Qed.

(** C6 (as amended).  An instance freshly made for an element, whose
    check and whose properties' checks append no info at that element
    (the checks of [types.py] never do), is left as it was by its export:
    a second export on the same instance gives the same string, [None]
    or error as the first. *)
Theorem BFNamelist_to_fds_twice (c : BFClass) (e : element) :
  (check c e).1 = [] ->
  Forall (fun p => (check p e).1 = []) (bf_props c) ->
  (BFNamelist_to_fds (new c) e).2 = new c
  /\ (BFNamelist_to_fds (BFNamelist_to_fds (new c) e).2 e).1
     = (BFNamelist_to_fds (new c) e).1.
Proof.
  intros Hq Hqs.
  pose proof (BFNamelist_to_fds_quiet c e Hq Hqs) as Hsame.
  split; [exact Hsame|]. rewrite Hsame. reflexivity.
Qed.
End Idempotence.

(** ** Records of a namelist with a multiparam *)

Section Multiparams.
Context `{Builtins}.

Lemma mapM_as_str (l : list string) : mapM as_str (VStr <$> l) = Ok l.
Proof.
  induction l as [|s l IH]; [reflexivity|]. cbn. rewrite IH. reflexivity.
Qed.

Lemma split_multiparams_strs (xs : list string) (ms : list value) (rest : list value) :
  split_multiparams ((VStr <$> xs) ++ VTuple ms :: rest)%list
  = Some (VStr <$> xs, VTuple ms, rest).
Proof.
  induction xs as [|x xs IH]; [reflexivity|].
  cbn. cbn in IH. rewrite IH. reflexivity.
Qed.

Lemma remove_id_first (a b : list string) (idp : string) :
  Forall (fun s => String.prefix "ID=" s = false) a ->
  String.prefix "ID=" idp = true ->
  remove_id (VStr <$> (a ++ idp :: b)%list) = Ok (VStr <$> (a ++ b)%list).
Proof.
  intros Ha Hid. induction Ha as [|x a Hx Ha IH].
  - cbn. rewrite Hid. reflexivity.
  - cbn. rewrite Hx. cbn in IH. rewrite IH. reflexivity.
Qed.

End Multiparams.

(** ** Import of a namelist *)

Section NamelistImport.
Context `{Builtins} `{Blender}.

(** C9.  With no token, be the collection missing or empty,
    [BFNamelist.from_fds] returns at once whatever the namelist, a scene
    one included: the element is the one it was given, so nothing was
    reset to its default, no free text was written and no export flag
    was set. *)
Theorem BFNamelist_from_fds_no_tokens (c : BFClass) (e : element) :
  BFNamelist_from_fds c None e = (Ok (), e)
  /\ BFNamelist_from_fds c (Some []) e = (Ok (), e).
Proof. split; reflexivity. Qed.

Lemma import_tokens_free_texts c t : forall free_texts errors e,
  (import_tokens c t free_texts errors e).1.1
  = (free_texts ++ unmanaged_texts c t)%list.
Proof.
  induction t as [|[k [v fv]] t IH]; intros free_texts errors e.
  - cbn. rewrite app_nil_r. reflexivity.
  - cbn [import_tokens]. unfold unmanaged_texts. cbn [omap list_omap].
    fold (unmanaged_texts c t). unfold unmanaged_text at 1. cbn [fst snd].
    destruct (get_by_fds_label (all_bf_props c) k) as [p|].
    + destruct (BFProp_from_fds p v e) as [[[]|err] e']; apply IH.
    + rewrite IH, <- app_assoc. reflexivity.
Qed.

Lemma set_value_other c v e k :
  str_truthy (bpy_idname c) <> Some k ->
  getattr (set_value c v e).2 k = getattr e k.
Proof.
  intros Hne. unfold set_value.
  destruct (str_truthy (bpy_idname c)) as [name|]; [|reflexivity].
  unfold setattr. destruct (bpy_accepts e name v); [|reflexivity].
  cbn. unfold getattr. rewrite lookup_insert_ne; [reflexivity|congruence].
Qed.

Lemma raise_or_export_other c errors e k :
  (forall x, bf_prop_export c = Some x -> str_truthy (bpy_idname x) <> Some k) ->
  getattr (raise_or_export c errors e).2 k = getattr e k.
Proof.
  intros Hne. unfold raise_or_export. destruct errors; [|reflexivity].
  unfold set_exported. destruct (bf_prop_export c) as [x|]; [|reflexivity].
  apply set_value_other. apply Hne. reflexivity.
Qed.

(** C3.  Importing tokens (the collection is not empty, and the defaults
    of a scene namelist could be set), every token whose label no
    property of the namelist manages adds [LABEL=text] to the buffer, in
    the order the tokens are taken; when the buffer is not empty and the
    namelist has a free-text property that Blender lets be assigned, the
    property holds the buffer joined by spaces after the import, errors
    of other tokens or not. *)
Theorem BFNamelist_from_fds_unmanaged
    (c free : BFClass) (name : string) (t : tokens) (e e0 : element) :
  t <> [] ->
  bf_prop_free c = Some free ->
  str_truthy (bpy_idname free) = Some name ->
  (forall x, bf_prop_export c = Some x -> str_truthy (bpy_idname x) <> Some name) ->
  reset_scene c e = (Ok (), e0) ->
  unmanaged_texts c (sorted_tokens t) <> [] ->
  bpy_accepts (import_tokens c (sorted_tokens t) [] [] e0).2 name
    (VStr (join " " (unmanaged_texts c (sorted_tokens t)))) = true ->
  (import_tokens c (sorted_tokens t) [] [] e0).1.1 = unmanaged_texts c (sorted_tokens t)
  /\ get_value free (BFNamelist_from_fds c (Some t) e).2
     = VStr (join " " (unmanaged_texts c (sorted_tokens t))).
Proof.
  intros Ht Hfree Hname Hexp Hreset Hne Hacc.
  pose proof (import_tokens_free_texts c (sorted_tokens t) [] [] e0) as Hft.
  cbn [app] in Hft. split; [exact Hft|].
  unfold BFNamelist_from_fds. destruct t as [|kv t]; [congruence|].
  unfold mbind, st_bind. rewrite Hreset.
  destruct (import_tokens c (sorted_tokens (kv :: t)) [] [] e0)
    as [[free_texts errors] e1] eqn:Himp.
  cbn [fst snd] in *. subst free_texts.
  unfold save_free_texts. rewrite Hfree.
  destruct (unmanaged_texts c (sorted_tokens (kv :: t))) as [|ft fts] eqn:Hu;
    [congruence|].
  unfold set_value at 1. rewrite Hname. unfold setattr. rewrite Hacc.
  unfold get_value. rewrite Hname. cbn [default].
  rewrite raise_or_export_other by exact Hexp.
  unfold getattr. rewrite lookup_insert_eq. reflexivity.
Qed.
End NamelistImport.

(** ** Import of a document: the free text file *)

Lemma foreign_only_ret {S A} (a : A) : foreign_only (mret a : st S A).
Proof. intros s b. discriminate. Qed.

Lemma foreign_only_bind {S A B} (m : st S A) (f : A -> st S B) :
  foreign_only m -> (forall a, foreign_only (f a)) -> foreign_only (m ≫= f).
Proof.
  intros Hm Hf s b. unfold mbind, st_bind. specialize (Hm s).
  destruct (m s) as [[a|err] s']; cbn [fst] in *; [apply Hf|].
  intros [= ->]. apply (Hm b). reflexivity.
Qed.

Section SceneImport.
Context `{Builtins} `{Blender} `{Fds}.
Variable all : list BFClass.

Lemma keeps_texts_bind {A B} (m : st world A) (k : A -> st world B) :
  keeps_texts m -> (forall a, keeps_texts (k a)) -> keeps_texts (m ≫= k).
Proof.
  intros Hm Hk w. unfold mbind, st_bind. specialize (Hm w).
  destruct (m w) as [[a|err] w']; cbn [snd] in *; [|exact Hm].
  rewrite Hk. exact Hm.
Qed.

Lemma keeps_texts_ret {A} (a : A) : keeps_texts (mret a : st world A).
Proof. intros w. reflexivity. Qed.

Lemma on_element_texts {A} h (m : io A) : keeps_texts (on_element h m).
Proof.
  intros w. unfold on_element. destruct (m (get_element h w)) as [r e'].
  destruct h; reflexivity.
Qed.

Lemma get_imported_element_texts c fds_label' :
  keeps_texts (get_imported_element all c fds_label').
Proof.
  unfold get_imported_element.
  destruct (bpy_type c) as [[| |]|];
    repeat first
      [ apply keeps_texts_bind; [|intros ?]
      | apply keeps_texts_ret
      | apply on_element_texts
      | intros w; reflexivity ].
Qed.

Lemma import_namelists_texts ts : forall errors free_texts w,
  texts (import_namelists all ts errors free_texts w).2 = texts w.
Proof.
  induction ts as [|[[k params] original] ts IH]; intros errors free_texts w;
    [reflexivity|].
  cbn [import_namelists].
  destruct (get_imported_bf_namelist_cls all k params) as [[c|]|err];
    [|apply IH|reflexivity].
  pose proof (get_imported_element_texts c k w) as Hk1.
  destruct (get_imported_element all c k w) as [[h|err] w1]; cbn [snd] in Hk1;
    [|exact Hk1].
  pose proof (on_element_texts h (BFNamelist_from_fds c (Some params)) w1) as Hk2.
  destruct (on_element h (BFNamelist_from_fds c (Some params)) w1) as [[[]|err] w2];
    cbn [snd] in Hk2.
  - rewrite IH. congruence.
  - destruct err; cbn [snd]; first [rewrite IH; congruence | congruence].
Qed.

Lemma import_document_texts value w :
  texts (import_document all value w).2 = texts w.
Proof.
  unfold import_document.
  destruct (tokenize value) as [ts|[]]; try reflexivity.
  apply import_namelists_texts.
Qed.

Lemma on_element_foreign {A} h (m : io A) :
  foreign_only m -> foreign_only (on_element h m).
Proof.
  intros Hm w b. unfold on_element. specialize (Hm (get_element h w) b).
  destruct (m (get_element h w)) as [r e']. exact Hm.
Qed.

Lemma setattr_foreign name v : foreign_only (setattr name v).
Proof. intros e b. unfold setattr. destruct (bpy_accepts e name v); discriminate. Qed.

Lemma object_set_default_appearance_foreign :
  foreign_only (object_set_default_appearance all).
Proof.
  intros e b. unfold object_set_default_appearance.
  destruct (match getattr e "bf_namelist_cls" with
            | VStr name => get_by_name all name
            | _ => None
            end) as [bf_namelist|]; [|discriminate].
  revert e b. apply foreign_only_bind; [|intros ?; apply setattr_foreign].
  destruct (str_truthy (bf_draw_type bf_namelist));
    [apply setattr_foreign | apply foreign_only_ret].
Qed.

Lemma get_imported_element_foreign c fds_label' :
  foreign_only (get_imported_element all c fds_label').
Proof.
  unfold get_imported_element.
  destruct (bpy_type c) as [[| |]|];
    repeat first
      [ apply object_set_default_appearance_foreign
      | apply foreign_only_bind; [|intros ?]
      | apply foreign_only_ret
      | apply on_element_foreign
      | apply setattr_foreign
      | intros w b; discriminate ].
Qed.

Lemma import_namelists_foreign ts : forall errors free_texts,
  foreign_only (import_namelists all ts errors free_texts).
Proof.
  induction ts as [|[[k params] original] ts IH]; intros errors free_texts w b;
    [discriminate|].
  cbn [import_namelists].
  destruct (get_imported_bf_namelist_cls all k params) as [[c|]|err] eqn:Hcls;
    [|apply IH|].
  - pose proof (get_imported_element_foreign c k w) as Hel.
    destruct (get_imported_element all c k w) as [[h|err] w1]; cbn [fst] in Hel;
      [|cbn; intros [= ->]; exact (Hel b eq_refl)].
    destruct (on_element h (BFNamelist_from_fds c (Some params)) w1) as [[[]|err] w2];
      [apply IH|].
    destruct err; first [apply IH | cbn; discriminate].
  - unfold get_imported_bf_namelist_cls in Hcls.
    destruct (get_by_fds_label all k); [discriminate|].
    destruct (existsb _ _); [|discriminate].
    destruct (get_by_name all "ON_free"); [discriminate|].
    injection Hcls as <-. discriminate.
Qed.

Lemma import_document_foreign value : foreign_only (import_document all value).
Proof.
  intros w b. unfold import_document.
  destruct (tokenize value) as [ts|[]]; try discriminate.
  apply import_namelists_foreign.
Qed.

(** C5.  An import ends the tokenizer and the loop over the tokens in one
    of two ways.  Either they are gone through, a [BFException] of the
    tokenizer or of a namelist being caught: then the free text file of
    the scene, whose name [set_free_text_file] answers, is written with
    the unmanaged texts of this import followed by what the file held,
    joined by newlines, and with no unmanaged text it is written all the
    same, with what it held; the tokens leave the text blocks alone, and
    the import then raises if an error was met.  Or an exception that is
    no [BFException] leaves them: then the import raises it at once and the
    free text file is not written, the text blocks being what they
    were. *)
Theorem BFScene_from_fds_merges (value : string) (w : world) :
  (forall (w1 w2 : world) (errors : bool) (free_texts : list string)
          (name old_free_texts : string),
     import_document all value w = (Ok (errors, free_texts), w1) ->
     set_free_text_file w1 = (name, w2) ->
     texts w2 !! name = Some old_free_texts ->
     texts w1 = texts w
     /\ texts (BFScene_from_fds all value w).2
        = <[name := merged free_texts old_free_texts]> (texts w2)
     /\ (free_texts = [] ->
         texts (BFScene_from_fds all value w).2 !! name = Some old_free_texts)
     /\ ((BFScene_from_fds all value w).1 = Ok () <-> errors = false))
  /\ (forall (err : exn) (w1 : world),
        import_document all value w = (Raise err, w1) ->
        (forall b, err <> EBF b)
        /\ BFScene_from_fds all value w = (Raise err, w1)
        /\ texts w1 = texts w).
Proof.
  split.
  - intros w1 w2 errors free_texts name old_free_texts Himp Hset Hold.
    assert (Htexts : texts (BFScene_from_fds all value w).2
                     = <[name := merged free_texts old_free_texts]> (texts w2)
            /\ ((BFScene_from_fds all value w).1 = Ok () <-> errors = false)).
    { unfold BFScene_from_fds. rewrite Himp.
      unfold save_imported_unmanaged_tokens. rewrite Hset, Hold.
      unfold merged.
      destruct (String.eqb old_free_texts ""); rewrite ?app_nil_r;
        destruct errors; cbn; (split; [reflexivity|]); split; congruence. }
    destruct Htexts as [Htexts Hres].
    split; [|split; [|split]].
    + pose proof (import_document_texts value w) as Hd. rewrite Himp in Hd. exact Hd.
    + exact Htexts.
    + intros ->. rewrite Htexts, lookup_insert_eq. unfold merged. cbn [app].
      destruct (String.eqb old_free_texts "") eqn:Hemp; [|reflexivity].
      apply String.eqb_eq in Hemp. subst. reflexivity.
    + exact Hres.
  - intros err w1 Himp. split; [|split].
    + intros b ->. apply (import_document_foreign value w b). rewrite Himp. reflexivity.
    + unfold BFScene_from_fds. rewrite Himp. reflexivity.
    + pose proof (import_document_texts value w) as Hd. rewrite Himp in Hd. exact Hd.
Qed.
End SceneImport.

(** ** Movement between bounding boxes *)

Module GeometryProps.
Import Geometry.

Lemma axis_movement (p q r s : float) :
  exact_axis p q r s ->
  (F2Q (half_diff p q r s) == centre p q - centre r s)%Q
  /\ (centre (r + half_diff p q r s) (s + half_diff p q r s) == centre p q)%Q
  /\ (size (r + half_diff p q r s) (s + half_diff p q r s) == size r s)%Q.
Proof.
  intros ([_ H1] & [_ H2] & [_ H3] & [_ H4] & [_ H5] & [_ H6]).
  unfold centre, size.
  assert (Hm : (F2Q (half_diff p q r s) == (F2Q p + F2Q q - F2Q r - F2Q s) / 2)%Q).
  { unfold half_diff. rewrite H4, H3, H2, H1. reflexivity. }
  rewrite H5, H6, Hm. repeat apply conj; field.
Qed.

(** C10 (as amended).  When none of the float operations of the two
    functions rounds, each component of the movement is the difference of
    the centres of [bbox0] and [bbox1] along its axis, and [bbox1] moved by
    it has the centre of [bbox0] and the sizes of [bbox1]. *)
Theorem movement_between_centres (a0 a1 a2 a3 a4 a5 b0 b1 b2 b3 b4 b5 : float) :
  exact_axis a0 a1 b0 b1 ->
  exact_axis a2 a3 b2 b3 ->
  exact_axis a4 a5 b4 b5 ->
  let mx := half_diff a0 a1 b0 b1 in
  let my := half_diff a2 a3 b2 b3 in
  let mz := half_diff a4 a5 b4 b5 in
  calc_movement_from_bbox1_to_bbox0 [a0; a1; a2; a3; a4; a5] [b0; b1; b2; b3; b4; b5]
    = Ok (mx, my, mz)
  /\ move_xbs [[b0; b1; b2; b3; b4; b5]] (mx, my, mz)
     = (Ok (), [[b0 + mx; b1 + mx; b2 + my; b3 + my; b4 + mz; b5 + mz]%float])
  /\ (F2Q mx == centre a0 a1 - centre b0 b1
      /\ F2Q my == centre a2 a3 - centre b2 b3
      /\ F2Q mz == centre a4 a5 - centre b4 b5)%Q
  /\ (centre (b0 + mx) (b1 + mx) == centre a0 a1
      /\ centre (b2 + my) (b3 + my) == centre a2 a3
      /\ centre (b4 + mz) (b5 + mz) == centre a4 a5)%Q
  /\ (size (b0 + mx) (b1 + mx) == size b0 b1
      /\ size (b2 + my) (b3 + my) == size b2 b3
      /\ size (b4 + mz) (b5 + mz) == size b4 b5)%Q.
Proof.
  intros Hx Hy Hz mx my mz.
  destruct (axis_movement _ _ _ _ Hx) as (Hx1 & Hx2 & Hx3).
  destruct (axis_movement _ _ _ _ Hy) as (Hy1 & Hy2 & Hy3).
  destruct (axis_movement _ _ _ _ Hz) as (Hz1 & Hz2 & Hz3).
  repeat apply conj; first [reflexivity | assumption].
Qed.

End GeometryProps.

(** * Further properties *)

(** ** The collection of managed properties *)

Lemma all_bf_props_unfold c :
  all_bf_props c
  = (match bf_prop_export c with Some x => [x] | None => [] end ++
     flat_map (fun p => p :: all_bf_props p) (bf_props c))%list.
Proof. destruct c; reflexivity. Qed.

Lemma bf_props_in_all c p : p ∈ bf_props c -> p ∈ all_bf_props c.
Proof.
  intros Hp. rewrite all_bf_props_unfold. apply elem_of_app. right.
  apply list_elem_of_In, in_flat_map. exists p.
  split; [apply list_elem_of_In; exact Hp|left; reflexivity].
Qed.

(** X1.  [subscribe]: the collection [all_bf_props] of a class holds its export
    property, each of its [bf_props], and with each of them all that the
    collection of that property holds. *)
Theorem all_bf_props_closed (c : BFClass) :
  (forall x, bf_prop_export c = Some x -> x ∈ all_bf_props c)
  /\ (forall p, p ∈ bf_props c ->
      p ∈ all_bf_props c /\ forall q, q ∈ all_bf_props p -> q ∈ all_bf_props c).
Proof.
  rewrite all_bf_props_unfold. split.
  - intros x ->. apply elem_of_app. left. apply list_elem_of_singleton. reflexivity.
  - intros p Hp. split; [|intros q Hq]; apply elem_of_app; right;
      apply list_elem_of_In, in_flat_map; exists p;
      (split; [apply list_elem_of_In; exact Hp|]).
    + left. reflexivity.
    + right. apply list_elem_of_In. exact Hq.
Qed.

Lemma get_by_fds_label_some l k p :
  get_by_fds_label l k = Some p -> p ∈ l /\ fds_label p = Some k.
Proof.
  unfold get_by_fds_label. intros Hf. apply find_some in Hf as [Hin Hb].
  split; [apply list_elem_of_In; exact Hin|].
  apply bool_decide_eq_true in Hb. exact Hb.
Qed.

(** ** The order in which tokens are taken *)

Lemma filter_partition {A} (f : A -> bool) (l : list A) :
  (List.filter f l ++ List.filter (fun x => negb (f x)) l)%list ≡ₚ l.
Proof.
  induction l as [|x l IH]; [reflexivity|].
  cbn. destruct (f x); cbn.
  - rewrite IH. reflexivity.
  - rewrite <- Permutation_middle, IH. reflexivity.
Qed.

Lemma sorted_tokens_all (t : tokens) : sorted_tokens t ≡ₚ t.
Proof.
  unfold sorted_tokens.
  rewrite (Permutation_app_comm _ _).
  etransitivity; [|apply (filter_partition (fun kv => String.eqb kv.1 "SURF_ID"))].
  reflexivity.
Qed.



Section TokenOrder.
Context `{Builtins} `{Blender}.


End TokenOrder.

(** ** What the import of a namelist leaves alone *)

Section ImportFrame.
Context `{Builtins} `{Blender}.

Lemma keeps_ret k {A} (a : A) : keeps k (mret a : io A).
Proof. intros e. reflexivity. Qed.

Lemma keeps_bind k {A B} (m : io A) (f : A -> io B) :
  keeps k m -> (forall a, keeps k (f a)) -> keeps k (m ≫= f).
Proof.
  intros Hm Hf e. unfold mbind, st_bind. specialize (Hm e).
  destruct (m e) as [[a|err] e']; cbn [snd] in *; [|exact Hm].
  rewrite Hf. exact Hm.
Qed.

Lemma keeps_for_each k {A} (body : A -> io unit) (xs : list A) :
  (forall x, x ∈ xs -> keeps k (body x)) -> keeps k (for_each body xs).
Proof.
  induction xs as [|x xs IH]; intros Hb; [apply keeps_ret|].
  cbn [for_each]. apply keeps_bind.
  - apply Hb. left.
  - intros _. apply IH. intros y Hy. apply Hb. right. exact Hy.
Qed.

Lemma keeps_set_value k c v :
  str_truthy (bpy_idname c) <> Some k -> keeps k (set_value c v).
Proof. intros Hne e. apply set_value_other. exact Hne. Qed.

Lemma not_managed k c p :
  k ∉ managed_idnames c -> p ∈ c :: all_bf_props c ->
  str_truthy (bpy_idname p) <> Some k
  /\ forall x, bf_prop_export p = Some x -> str_truthy (bpy_idname x) <> Some k.
Proof.
  intros Hk Hp. split; [intros Heq|intros x Hx Heq]; apply Hk; unfold managed_idnames;
    apply list_elem_of_omap.
  - exists p. split; [|exact Heq].
    apply list_elem_of_In, in_flat_map. exists p.
    split; [apply list_elem_of_In; exact Hp | left; reflexivity].
  - exists x. split; [|exact Heq].
    apply list_elem_of_In, in_flat_map. exists p.
    split; [apply list_elem_of_In; exact Hp|].
    unfold with_export. rewrite Hx. right. left. reflexivity.
Qed.

Lemma not_managed_idname k c p :
  k ∉ managed_idnames c -> p ∈ c :: all_bf_props c ->
  str_truthy (bpy_idname p) <> Some k.
Proof. intros Hk Hp. exact (proj1 (not_managed k c p Hk Hp)). Qed.

Lemma not_managed_export k c p :
  k ∉ managed_idnames c -> p ∈ c :: all_bf_props c ->
  forall x, bf_prop_export p = Some x -> str_truthy (bpy_idname x) <> Some k.
Proof. intros Hk Hp. exact (proj2 (not_managed k c p Hk Hp)). Qed.

Lemma keeps_set_default_value k c :
  str_truthy (bpy_idname c) <> Some k -> keeps k (set_default_value c).
Proof.
  intros Hne. unfold set_default_value.
  destruct (bpy_default c); first [apply keeps_ret | apply keeps_set_value; exact Hne].
Qed.

Lemma keeps_set_exported k c v :
  (forall x, bf_prop_export c = Some x -> str_truthy (bpy_idname x) <> Some k) ->
  keeps k (set_exported c v).
Proof.
  intros Hne. unfold set_exported. destruct (bf_prop_export c) as [x|];
    [apply keeps_set_value, Hne; reflexivity | apply keeps_ret].
Qed.

Lemma keeps_BFProp_from_fds k p v :
  str_truthy (bpy_idname p) <> Some k ->
  (forall x, bf_prop_export p = Some x -> str_truthy (bpy_idname x) <> Some k) ->
  keeps k (BFProp_from_fds p v).
Proof.
  intros Hp Hx e. unfold BFProp_from_fds.
  pose proof (keeps_set_value k p v Hp e) as Hs.
  destruct (set_value p v e) as [[[]|err] e']; cbn [snd] in *; [|exact Hs].
  rewrite (keeps_set_exported k p (VBool true) Hx e'). exact Hs.
Qed.

Lemma import_tokens_keeps k c t : forall free_texts errors e,
  k ∉ managed_idnames c ->
  getattr (import_tokens c t free_texts errors e).2 k = getattr e k.
Proof.
  induction t as [|[l [v fv]] t IH]; intros free_texts errors e Hk; [reflexivity|].
  cbn [import_tokens].
  destruct (get_by_fds_label (all_bf_props c) l) as [p|] eqn:Hl; [|apply IH, Hk].
  apply get_by_fds_label_some in Hl as [Hp _].
  destruct (not_managed k c p Hk) as [Hn1 Hn2]; [right; exact Hp|].
  pose proof (keeps_BFProp_from_fds k p v Hn1 Hn2 e) as Hkeep.
  destruct (BFProp_from_fds p v e) as [[[]|err] e']; cbn [snd] in Hkeep;
    rewrite IH by exact Hk; exact Hkeep.
Qed.

Lemma keeps_set_default k c : k ∉ managed_idnames c -> keeps k (set_default c).
Proof.
  intros Hk. unfold set_default. apply keeps_bind.
  - apply keeps_set_default_value, (not_managed_idname k c c Hk). left.
  - intros _. apply keeps_for_each. intros p Hp.
    apply keeps_set_default_value, (not_managed_idname k c p Hk). right. exact Hp.
Qed.

Lemma bf_prop_free_managed c free :
  bf_prop_free c = Some free -> free ∈ all_bf_props c.
Proof.
  unfold bf_prop_free. intros Hf. apply find_some in Hf as [Hin _].
  apply bf_props_in_all, list_elem_of_In, Hin.
Qed.

(** X3.  [BFNamelist.from_fds] assigns no attribute of the element but those
    named by the [bpy_idname] of the namelist class, of the classes of its
    [all_bf_props] and of their export properties: any other attribute is
    after the import, finished or raised, what it was before. *)
Theorem BFNamelist_from_fds_frame
    (c : BFClass) (t : option tokens) (e : element) (k : string) :
  k ∉ managed_idnames c ->
  getattr (BFNamelist_from_fds c t e).2 k = getattr e k.
Proof.
  intros Hk. unfold BFNamelist_from_fds.
  destruct t as [[|kv t]|]; [reflexivity| |reflexivity].
  revert e. apply keeps_bind.
  - unfold reset_scene. destruct (bpy_type c) as [[| |]|];
      first [apply keeps_set_default; exact Hk | apply keeps_ret].
  - intros _ e.
    pose proof (import_tokens_keeps k c (sorted_tokens (kv :: t)) [] [] e Hk) as Hi.
    destruct (import_tokens c (sorted_tokens (kv :: t)) [] [] e)
      as [[free_texts errors] e1]. cbn [snd] in Hi. rewrite <- Hi.
    revert e1 Hi. intros e1 _. revert e1. apply keeps_bind.
    + unfold save_free_texts.
      destruct free_texts as [|ft fts]; [apply keeps_ret|].
      destruct (bf_prop_free c) as [free|] eqn:Hf; [|apply keeps_ret].
      apply keeps_set_value, (not_managed_idname k c free Hk). right.
      apply bf_prop_free_managed. exact Hf.
    + intros _. unfold raise_or_export. destruct errors as [|err errs].
      * apply keeps_set_exported, (not_managed_export k c c Hk). left.
      * intros e1. reflexivity.
Qed.
End ImportFrame.

(** ** Import of a property *)

Section PropImport.
Context `{Builtins} `{Blender}.

Lemma BFProp_from_fds_refused c v e k :
  str_truthy (bpy_idname c) = Some k ->
  bpy_accepts e k v = false ->
  BFProp_from_fds c v e
  = (raise_bf c ("Error importing '" +:+ py_str v +:+ "' value") [], e).
Proof.
  intros Hk Hno. unfold BFProp_from_fds, set_value, setattr. rewrite Hk, Hno.
  reflexivity.
Qed.

(** X4.  [BFProp.from_fds], then the getters: when the import of a value into a
    property with a [bpy_idname] of its own succeeds, the property reads
    that value, its export flag, if it has one, reads [True], and it is
    exported exactly when it has no [fds_default] or the value differs
    from it. *)
Theorem BFProp_from_fds_then_get (c : BFClass) (v : value) (e : element) (k : string) :
  str_truthy (bpy_idname c) = Some k ->
  (forall x, bf_prop_export c = Some x ->
     exists kx, str_truthy (bpy_idname x) = Some kx /\ kx <> k) ->
  (BFProp_from_fds c v e).1 = Ok () ->
  get_value c (BFProp_from_fds c v e).2 = v
  /\ (forall x, bf_prop_export c = Some x ->
      get_value x (BFProp_from_fds c v e).2 = VBool true)
  /\ get_exported c (BFProp_from_fds c v e).2
     = match fds_default c with VNone => true | d => py_neb v d end.
Proof.
  intros Hk Hx Hok.
  assert (Hboth : get_value c (BFProp_from_fds c v e).2 = v
    /\ (forall x, bf_prop_export c = Some x ->
        get_value x (BFProp_from_fds c v e).2 = VBool true)).
  { destruct (BFProp_from_fds c v e) as [r e'] eqn:Hrun. cbn [fst snd] in *. subst r.
    unfold BFProp_from_fds, set_value, setattr in Hrun. rewrite Hk in Hrun.
    destruct (bpy_accepts e k v); [|discriminate Hrun].
    unfold set_exported in Hrun. destruct (bf_prop_export c) as [x|] eqn:Hxe.
    - destruct (Hx x eq_refl) as (kx & Hkx & Hne).
      unfold set_value, setattr in Hrun. rewrite Hkx in Hrun.
      destruct (bpy_accepts _ kx (VBool true)); [|discriminate Hrun].
      injection Hrun as <-. split.
      + unfold get_value, getattr. rewrite Hk. cbn [default].
        rewrite lookup_insert_ne by exact Hne. rewrite lookup_insert_eq.
        reflexivity.
      + intros x' [= <-]. unfold get_value, getattr. rewrite Hkx. cbn [default].
        rewrite lookup_insert_eq. reflexivity.
    - injection Hrun as <-. split; [|discriminate].
      unfold get_value, getattr. rewrite Hk. cbn [default].
      rewrite lookup_insert_eq. reflexivity. }
  destruct Hboth as [Hv Hflag]. split; [exact Hv|]. split; [exact Hflag|].
  unfold get_exported. rewrite Hv.
  destruct (bf_prop_export c) as [x|] eqn:Hxe.
  - rewrite (Hflag x eq_refl). destruct (fds_default c); reflexivity.
  - destruct (fds_default c); reflexivity.
Qed.

Lemma import_tokens_errors_grow c t : forall free_texts errors e err,
  err ∈ errors -> err ∈ (import_tokens c t free_texts errors e).1.2.
Proof.
  induction t as [|[l [v fv]] t IH]; intros free_texts errors e err Hin; [exact Hin|].
  cbn [import_tokens].
  destruct (get_by_fds_label (all_bf_props c) l) as [p|]; [|apply IH, Hin].
  destruct (BFProp_from_fds p v e) as [[[]|err'] e']; apply IH; [exact Hin|].
  apply elem_of_app. left. exact Hin.
Qed.

Lemma import_tokens_refused c p l v fv k t : forall free_texts errors e,
  (l, (v, fv)) ∈ t ->
  get_by_fds_label (all_bf_props c) l = Some p ->
  str_truthy (bpy_idname p) = Some k ->
  (forall e', bpy_accepts e' k v = false) ->
  EBF (BFExc (sender_of p) ("Error importing '" +:+ py_str v +:+ "' value") [])
    ∈ (import_tokens c t free_texts errors e).1.2.
Proof.
  induction t as [|[l' [v' fv']] t IH]; intros free_texts errors e Hin Hl Hk Hno;
    [inversion Hin|].
  cbn [import_tokens].
  apply elem_of_cons in Hin as [Heq|Hin].
  - injection Heq as <- <- <-. rewrite Hl.
    rewrite (BFProp_from_fds_refused p v e k Hk (Hno e)).
    apply import_tokens_errors_grow, elem_of_app. right.
    apply list_elem_of_singleton. reflexivity.
  - destruct (get_by_fds_label (all_bf_props c) l') as [p'|];
      [destruct (BFProp_from_fds p' v' e) as [[[]|err'] e']|];
      apply IH; assumption.
Qed.

Lemma foreign_only_for_each {S A} (body : A -> st S unit) (xs : list A) :
  (forall x, foreign_only (body x)) -> foreign_only (for_each body xs).
Proof.
  intros Hb. induction xs as [|x xs IH]; [apply foreign_only_ret|].
  cbn [for_each]. apply foreign_only_bind; [apply Hb | intros _; exact IH].
Qed.

Lemma foreign_only_set_value c v : foreign_only (set_value c v).
Proof.
  intros e b. unfold set_value, setattr.
  destruct (str_truthy (bpy_idname c)); [|discriminate].
  destruct (bpy_accepts _ _ _); discriminate.
Qed.

Lemma foreign_only_set_default_value c : foreign_only (set_default_value c).
Proof.
  unfold set_default_value.
  destruct (bpy_default c); first [apply foreign_only_ret | apply foreign_only_set_value].
Qed.

Lemma foreign_only_reset_scene c : foreign_only (reset_scene c).
Proof.
  unfold reset_scene. destruct (bpy_type c) as [[| |]|]; try apply foreign_only_ret.
  unfold set_default. apply foreign_only_bind; [apply foreign_only_set_default_value|].
  intros _. apply foreign_only_for_each. apply foreign_only_set_default_value.
Qed.

Lemma foreign_only_save_free_texts c free_texts :
  foreign_only (save_free_texts c free_texts).
Proof.
  unfold save_free_texts. destruct free_texts; [apply foreign_only_ret|].
  destruct (bf_prop_free c); [apply foreign_only_set_value | apply foreign_only_ret].
Qed.

(** X5.  A value Blender refuses is not dropped in silence: when the collection
    holds a token that a property of the namelist manages and Blender
    refuses its value for that property, [BFNamelist.from_fds] does not
    return; a [BFException] it raises is the one of the namelist, and
    among its nested errors is that of the property, naming the value. *)
Theorem BFNamelist_from_fds_refused
    (c p : BFClass) (l : string) (v : value) (fv k : string) (t : tokens) (e : element) :
  (l, (v, fv)) ∈ t ->
  get_by_fds_label (all_bf_props c) l = Some p ->
  str_truthy (bpy_idname p) = Some k ->
  (forall e', bpy_accepts e' k v = false) ->
  match (BFNamelist_from_fds c (Some t) e).1 with
  | Ok _ => False
  | Raise (EBF (BFExc snd msg errors)) =>
      snd = sender_of c /\ msg = "Following errors reported"
      /\ EBF (BFExc (sender_of p) ("Error importing '" +:+ py_str v +:+ "' value") [])
         ∈ errors
  | Raise _ => True
  end.
Proof.
  intros Hin Hl Hk Hno.
  assert (Hin' : (l, (v, fv)) ∈ sorted_tokens t).
  { rewrite (sorted_tokens_all t). exact Hin. }
  unfold BFNamelist_from_fds. destruct t as [|kv t]; [inversion Hin|].
  unfold mbind, st_bind.
  pose proof (foreign_only_reset_scene c e) as Hreset.
  destruct (reset_scene c e) as [[[]|err] e0]; cbn [fst] in *;
    [|destruct err; first [exact I | exfalso; eapply Hreset; reflexivity]].
  pose proof (import_tokens_refused c p l v fv k (sorted_tokens (kv :: t)) [] [] e0
                Hin' Hl Hk Hno) as Herr.
  destruct (import_tokens c (sorted_tokens (kv :: t)) [] [] e0)
    as [[free_texts errors] e1]. cbn [fst snd] in Herr.
  pose proof (foreign_only_save_free_texts c free_texts e1) as Hsave.
  destruct (save_free_texts c free_texts e1) as [[[]|err] e2]; cbn [fst] in *;
    [|destruct err; first [exact I | exfalso; eapply Hsave; reflexivity]].
  unfold raise_or_export. destruct errors as [|err errs]; [inversion Herr|].
  cbn. split; [reflexivity|]. split; [reflexivity|exact Herr].
Qed.
End PropImport.

(** ** Export of a namelist, continued *)

Section NamelistExportMore.
Context `{Builtins}.

(** X6.  When the namelist is exported, its check passes and none of its
    properties raises, [BFNamelist.to_fds] is [format] of the strings the
    properties gave, in the order of [bf_props], those that gave [None] or
    an empty string left out, with the infos collected. *)
Theorem BFNamelist_to_fds_record (i : instance) (e : element) :
  get_exported (cls_of i) e = true ->
  (check (cls_of i) e).2 = Ok () ->
  Forall (fun p => exists param, (BFProp_to_fds p e).1 = Ok param) (props_of i) ->
  (BFNamelist_to_fds i e).1
  = (s ← BFNamelist_format (cls_of i)
           (infos_of i ++ (check (cls_of i) e).1 ++ child_infos (props_of i) e)%list
           (VStr <$> child_params (props_of i) e);
     Ok (Some s)).
Proof.
  intros Hx Hck Hok.
  assert (Hc : Forall (fun p => caught (BFProp_to_fds p e).1 = true) (props_of i)).
  { eapply Forall_impl; [exact Hok|]. intros p [param ->]. reflexivity. }
  assert (Hne : child_errors (props_of i) e = []).
  { unfold child_errors. induction Hok as [|p ps [param Hp] _ IH]; [reflexivity|].
    cbn [omap list_omap]. rewrite Hp. cbn [error_of].
    inversion Hc; subst. apply IH. assumption. }
  unfold BFNamelist_to_fds. rewrite Hx. cbn [negb].
  destruct (check (cls_of i) e) as [added checked]. cbn [fst snd] in *. subst checked.
  rewrite export_props_all by exact Hc. rewrite Hne. cbn [app].
  rewrite <- app_assoc. reflexivity.
Qed.

(** X7.  An exception of a property that is no [BFException] ends the export of
    the namelist there: [BFNamelist.to_fds] raises that very exception,
    not a compound error, and the properties after it are not exported. *)
Theorem BFNamelist_to_fds_foreign
    (i : instance) (e : element) (ps1 ps2 : list instance) (p : instance) (err : exn) :
  get_exported (cls_of i) e = true ->
  (check (cls_of i) e).2 = Ok () ->
  props_of i = (ps1 ++ p :: ps2)%list ->
  Forall (fun q => caught (BFProp_to_fds q e).1 = true) ps1 ->
  (BFProp_to_fds p e).1 = Raise err ->
  caught (Raise err : result (option string)) = false ->
  (BFNamelist_to_fds i e).1 = Raise err
  /\ props_of (BFNamelist_to_fds i e).2
     = (exported ps1 e ++ (BFProp_to_fds p e).2 :: ps2)%list.
Proof.
  intros Hx Hck Hps Hc Hp Hf.
  unfold BFNamelist_to_fds. rewrite Hx. cbn [negb].
  destruct (check (cls_of i) e) as [added checked]. cbn [snd] in Hck. subst checked.
  rewrite Hps, export_props_prefix by exact Hc. cbn [export_props].
  destruct (BFProp_to_fds p e) as [r p']. cbn [fst snd] in *. subst r.
  destruct err; try discriminate Hf; split; reflexivity.
Qed.

(** X8.  A string property that holds a string, as Blender has it, fails its
    export with a [BFException] only. *)
Theorem string_prop_caught (c : BFClass) (e : element) (s : string)
    (infos : list value) (props : list instance) :
  check_override c = None ->
  base c = BFStringProp \/ base c = BFFreeProp ->
  get_value c e = VStr s ->
  caught (BFProp_to_fds (Inst c infos props) e).1 = true.
Proof.
  intros Hov Hb Hv. unfold BFProp_to_fds. cbn [cls_of].
  destruct (get_exported c e); [|reflexivity]. cbn [negb].
  unfold check. rewrite Hov.
  assert (Hfmt : forall v, caught (format c v) = true).
  { intros v. unfold format, BFStringProp_format.
    destruct Hb as [-> | ->]; destruct (truthy v);
      try destruct (str_truthy (fds_label c)); reflexivity. }
  destruct Hb as [Hb | Hb]; rewrite Hb; cbn [fst snd].
  - rewrite (BFStringProp_check_str c e s Hv).
    destruct (_ || _); [reflexivity|]. destruct (contains "#" s); [reflexivity|].
    destruct (has_quote s); [reflexivity|]. apply Hfmt.
  - rewrite (BFFreeProp_check_str c e s Hv).
    destruct (_ || _); [reflexivity|]. destruct (contains "#" s); [reflexivity|].
    destruct (_ || _); [reflexivity|]. apply Hfmt.
Qed.

(** X9.  An exported string property whose attribute holds no string and no
    sequence ([None] when the attribute is missing) fails its export with
    a [TypeError], which no namelist catches. *)
Theorem string_prop_type_error (c : BFClass) (e : element)
    (infos : list value) (props : list instance) :
  check_override c = None ->
  base c = BFStringProp \/ base c = BFFreeProp ->
  get_exported c e = true ->
  is_iterable (get_value c e) = false ->
  (forall s, get_value c e <> VStr s) ->
  (BFProp_to_fds (Inst c infos props) e).1 = Raise TypeError
  /\ caught (BFProp_to_fds (Inst c infos props) e).1 = false.
Proof.
  intros Hov Hb Hx Hit Hns.
  assert (Hr : (BFProp_to_fds (Inst c infos props) e).1 = Raise TypeError).
  { unfold BFProp_to_fds. cbn [cls_of]. rewrite Hx. cbn [negb].
    unfold check. rewrite Hov.
    destruct Hb as [-> | ->]; cbn [fst snd];
      unfold BFStringProp_check, BFFreeProp_check;
      destruct (get_value c e) as [| | | |s|]; try reflexivity;
      first [exfalso; apply (Hns s); reflexivity | discriminate Hit]. }
  split; [exact Hr|]. rewrite Hr. reflexivity.
Qed.
End NamelistExportMore.

(** ** Records of a namelist, continued *)

Section FormatMore.
Context `{Builtins}.

Lemma split_multiparams_none (ss : list string) :
  split_multiparams (VStr <$> ss) = None.
Proof.
  induction ss as [|s ss IH]; [reflexivity|]. cbn. cbn in IH. rewrite IH. reflexivity.
Qed.

Lemma body_plain c label infos info (ss : list string) :
  info_lines infos = Ok info ->
  (info ← info_lines infos;
   '(multiparams, params) ←
     match split_multiparams (VStr <$> ss) with
     | Some (pre, m, post) => ps ← remove_id (pre ++ post)%list; Ok (m, ps)
     | None => Ok (VNone, VStr <$> ss)
     end;
   param ← str_join (fds_separator c) (params ++ [VStr ("/" +:+ nl)])%list;
   body ←
     (if truthy multiparams then
        match multiparams with
        | VTuple ms =>
            bodies ← mapM as_str ms;
            Ok (join "" (map (fun m => join (fds_separator c)
                                 [("&" +:+ label +:+ " ") +:+ m; param]) bodies))
        | _ => Raise TypeError
        end
      else Ok (("&" +:+ label +:+ " ") +:+ param));
   Ok (info +:+ body))
  = Ok (info +:+ ("&" +:+ label +:+ " ") +:+
        join (fds_separator c) (ss ++ ["/" +:+ nl])%list).
Proof.
  intros Hi. rewrite Hi, split_multiparams_none. cbn [mbind result_bind].
  unfold str_join. change [VStr ("/" +:+ nl)] with (VStr <$> ["/" +:+ nl]).
  rewrite <- fmap_app, mapM_as_str. reflexivity.
Qed.

(** X10.  With a label of its own and string parameters only, none of them a
    multiparam, [BFNamelist.format] gives the info lines and one record
    [&LABEL p1 ... pn /]: every parameter is kept, in order, an [ID=] one
    too. *)
Theorem BFNamelist_format_plain
    (c : BFClass) (label : string) (infos : list value) (info : string)
    (ss : list string) :
  str_truthy (fds_label c) = Some label ->
  info_lines infos = Ok info ->
  BFNamelist_format c infos (VStr <$> ss)
  = Ok (info +:+ ("&" +:+ label +:+ " ") +:+
        join (fds_separator c) (ss ++ ["/" +:+ nl])%list).
Proof.
  intros Hl Hi. unfold BFNamelist_format, pop_label. rewrite Hl.
  cbn [mbind result_bind]. apply body_plain. exact Hi.
Qed.

(** X11.  A namelist class without a label ("free namelist") takes its label
    from the parameters: [BFNamelist.format] raises [IndexError] when there
    is none, [TypeError] when the first is no string, and otherwise uses
    the first as the label of the record and leaves it out of the
    parameters. *)
Theorem BFNamelist_format_free_label
    (c : BFClass) (infos : list value) (info : string) :
  str_truthy (fds_label c) = None ->
  info_lines infos = Ok info ->
  BFNamelist_format c infos [] = Raise IndexError
  /\ (forall ms ps, BFNamelist_format c infos (VTuple ms :: ps) = Raise TypeError)
  /\ (forall label ss,
        BFNamelist_format c infos (VStr label :: (VStr <$> ss))
        = Ok (info +:+ ("&" +:+ label +:+ " ") +:+
              join (fds_separator c) (ss ++ ["/" +:+ nl])%list)).
Proof.
  intros Hl Hi. unfold BFNamelist_format, pop_label. rewrite Hl.
  split; [reflexivity|]. split; [reflexivity|].
  intros label ss. cbn [mbind result_bind]. apply body_plain. exact Hi.
Qed.

Lemma remove_id_raises params err : remove_id params = Raise err -> err = TypeError.
Proof.
  induction params as [|p ps IH]; [discriminate|].
  cbn [remove_id]. destruct p; cbn; try (intros [= <-]; reflexivity).
  - destruct (String.prefix "ID=" s); [discriminate|].
    destruct (remove_id ps); [discriminate|]. cbn. intros [= <-]. apply IH. reflexivity.
  - destruct (remove_id ps); [discriminate|]. cbn. intros [= <-]. apply IH. reflexivity.
Qed.

Lemma remove_id_keeps_tuple params : forall params' ms,
  remove_id params = Ok params' -> VTuple ms ∈ params -> VTuple ms ∈ params'.
Proof.
  induction params as [|p ps IH]; intros params' ms Hr Hin; [inversion Hin|].
  cbn [remove_id] in Hr. destruct p; cbn in Hr; try discriminate Hr.
  - destruct (String.prefix "ID=" s).
    + injection Hr as <-. apply elem_of_cons in Hin as [Heq|Hin]; [discriminate|exact Hin].
    + destruct (remove_id ps) as [ps'|] eqn:Hps; [|discriminate Hr].
      cbn in Hr. injection Hr as <-.
      apply elem_of_cons in Hin as [Heq|Hin]; [discriminate|].
      right. apply (IH ps' ms eq_refl Hin).
  - destruct (remove_id ps) as [ps'|] eqn:Hps; [|discriminate Hr].
    cbn in Hr. injection Hr as <-.
    apply elem_of_cons in Hin as [Heq|Hin]; [rewrite Heq; left|].
    right. apply (IH ps' ms eq_refl Hin).
Qed.

Lemma mapM_as_str_tuple (l : list value) ms :
  VTuple ms ∈ l -> mapM as_str l = Raise TypeError.
Proof.
  induction l as [|x l IH]; intros Hin; [inversion Hin|].
  apply elem_of_cons in Hin as [<-|Hin]; [reflexivity|].
  cbn. destruct x; try reflexivity. cbn. rewrite (IH Hin). reflexivity.
Qed.

(** X12.  Only one multiparam is taken out: with a second one among the
    parameters [BFNamelist.format] raises [TypeError], it gives no
    record. *)
Theorem BFNamelist_format_two_multiparams
    (c : BFClass) (label : string) (infos : list value) (info : string)
    (xs : list string) (ms ms' : list value) (mid rest : list value) :
  str_truthy (fds_label c) = Some label ->
  info_lines infos = Ok info ->
  BFNamelist_format c infos
    ((VStr <$> xs) ++ VTuple ms :: mid ++ VTuple ms' :: rest)%list
  = Raise TypeError.
Proof.
  intros Hl Hi. unfold BFNamelist_format, pop_label. rewrite Hl.
  cbn [mbind result_bind]. rewrite Hi. cbn [mbind result_bind].
  rewrite split_multiparams_strs.
  assert (Hin : VTuple ms' ∈ ((VStr <$> xs) ++ mid ++ VTuple ms' :: rest)%list).
  { apply elem_of_app. right. apply elem_of_app. right. left. }
  destruct (remove_id _) as [ps|err] eqn:Hr.
  - cbn [mbind result_bind]. unfold str_join.
    rewrite (mapM_as_str_tuple (ps ++ [VStr ("/" +:+ nl)])%list ms'); [reflexivity|].
    apply elem_of_app. left. apply (remove_id_keeps_tuple _ _ _ Hr Hin).
  - cbn [mbind result_bind]. rewrite (remove_id_raises _ _ Hr). reflexivity.
Qed.

(** X13.  A multiparam without a body still counts as the multiparam: it is
    taken out of the parameters and so is the first [ID=] parameter, and
    [BFNamelist.format] gives one record of the parameters that are
    left. *)
Theorem BFNamelist_format_empty_multiparam
    (c : BFClass) (label : string) (infos : list value) (info : string)
    (xs ys a b : list string) (idp : string) :
  str_truthy (fds_label c) = Some label ->
  info_lines infos = Ok info ->
  (xs ++ ys = a ++ idp :: b)%list ->
  Forall (fun s => String.prefix "ID=" s = false) a ->
  String.prefix "ID=" idp = true ->
  BFNamelist_format c infos ((VStr <$> xs) ++ VTuple [] :: (VStr <$> ys))%list
  = Ok (info +:+ ("&" +:+ label +:+ " ") +:+
        join (fds_separator c) (a ++ b ++ ["/" +:+ nl])%list).
Proof.
  intros Hl Hi Hsplit Ha Hid.
  unfold BFNamelist_format, pop_label. rewrite Hl. cbn [mbind result_bind].
  rewrite Hi. cbn [mbind result_bind].
  rewrite split_multiparams_strs.
  rewrite <- fmap_app, Hsplit, (remove_id_first a b idp Ha Hid).
  cbn [mbind result_bind]. unfold str_join.
  change [VStr ("/" +:+ nl)] with (VStr <$> ["/" +:+ nl]).
  rewrite <- fmap_app, mapM_as_str. cbn [mbind result_bind].
  rewrite <- app_assoc. reflexivity.
Qed.
End FormatMore.

(** ** Bounding boxes, continued *)

Module GeometryMore.
Import Geometry.

Lemma item_lt (seq : list float) (i : nat) :
  (i < length seq)%nat -> exists x, item seq i = Ok x.
Proof.
  intros Hi. unfold item. destruct (seq !! i) as [x|] eqn:Hx; [eauto|].
  apply lookup_ge_None in Hx. lia.
Qed.

Lemma item_ge (seq : list float) (i : nat) :
  (length seq <= i)%nat -> item seq i = Raise IndexError.
Proof.
  intros Hi. unfold item. rewrite (proj2 (lookup_ge_None seq i) Hi). reflexivity.
Qed.

Lemma item_cases (seq : list float) (i : nat) :
  (exists x, item seq i = Ok x /\ (i < length seq)%nat)
  \/ (item seq i = Raise IndexError /\ (length seq <= i)%nat).
Proof.
  destruct (Nat.lt_ge_cases i (length seq)) as [Hlt|Hge].
  - left. destruct (item_lt seq i Hlt) as [x Hx]. eauto.
  - right. split; [apply item_ge|]; exact Hge.
Qed.

Lemma move_xb_cases (m : float * float * float) (xb : list float) :
  (exists xb', move_xb m xb = Ok xb' /\ (6 <= length xb)%nat /\ length xb' = 6%nat)
  \/ (move_xb m xb = Raise IndexError /\ (length xb < 6)%nat).
Proof.
  destruct m as [[mx my] mz]. unfold move_xb.
  destruct (item_cases xb 0) as [(c0 & -> & H0)|[-> H0]]; [|right; split; [reflexivity|lia]].
  destruct (item_cases xb 1) as [(c1 & -> & H1)|[-> H1]]; [|right; split; [reflexivity|lia]].
  destruct (item_cases xb 2) as [(c2 & -> & H2)|[-> H2]]; [|right; split; [reflexivity|lia]].
  destruct (item_cases xb 3) as [(c3 & -> & H3)|[-> H3]]; [|right; split; [reflexivity|lia]].
  destruct (item_cases xb 4) as [(c4 & -> & H4)|[-> H4]]; [|right; split; [reflexivity|lia]].
  destruct (item_cases xb 5) as [(c5 & -> & H5)|[-> H5]]; [|right; split; [reflexivity|lia]].
  left. eexists. split; [reflexivity|]. split; [lia|reflexivity].
Qed.

(** X14.  [move_xbs] on boxes of at least six entries returns, and has replaced
    every box by its six moved bounds: there are as many boxes as before,
    each of exactly six entries, what a box held past the sixth being
    dropped. *)
Theorem move_xbs_moves_all (xbs : list (list float)) (m : float * float * float) :
  Forall (fun xb => (6 <= length xb)%nat) xbs ->
  (move_xbs xbs m).1 = Ok ()
  /\ Forall2 (fun xb xb' => move_xb m xb = Ok xb') xbs (move_xbs xbs m).2
  /\ Forall (fun xb' => length xb' = 6%nat) (move_xbs xbs m).2.
Proof.
  induction 1 as [|xb xbs Hxb _ IH]; [repeat split; constructor|].
  cbn [move_xbs].
  destruct (move_xb_cases m xb) as [(xb' & Hm & _ & Hl)|[_ Hshort]]; [|lia].
  rewrite Hm. destruct IH as (IH1 & IH2 & IH3).
  destruct (move_xbs xbs m) as [r rest']. cbn [fst snd] in *.
  repeat split; [exact IH1 | constructor; assumption | constructor; assumption].
Qed.

(** X15.  A box of fewer than six entries makes [move_xbs] raise [IndexError]
    there: the boxes before it have been moved, that box and the boxes
    after it are as they were. *)
Theorem move_xbs_short_box
    (pre post : list (list float)) (xb : list float) (m : float * float * float) :
  Forall (fun xb => (6 <= length xb)%nat) pre ->
  (length xb < 6)%nat ->
  move_xbs (pre ++ xb :: post) m
  = (Raise IndexError, ((move_xbs pre m).2 ++ xb :: post)%list).
Proof.
  intros Hpre Hshort. induction Hpre as [|x pre Hx _ IH].
  - cbn [app move_xbs].
    destruct (move_xb_cases m xb) as [(xb' & _ & Hl & _)|[-> _]]; [lia|reflexivity].
  - cbn [app move_xbs].
    destruct (move_xb_cases m x) as [(x' & -> & _ & _)|[_ Hs]]; [|lia].
    rewrite IH. destruct (move_xbs pre m) as [r pre']. reflexivity.
Qed.

(** X16.  [calc_movement_from_bbox1_to_bbox0] returns a movement exactly when
    both boxes have at least six entries, and raises [IndexError]
    otherwise; entries past the sixth are not read. *)
Theorem calc_movement_defined (bbox0 bbox1 : list float) :
  ((6 <= length bbox0)%nat /\ (6 <= length bbox1)%nat ->
   exists a0 a1 a2 a3 a4 a5 b0 b1 b2 b3 b4 b5,
     take 6 bbox0 = [a0; a1; a2; a3; a4; a5]
     /\ take 6 bbox1 = [b0; b1; b2; b3; b4; b5]
     /\ calc_movement_from_bbox1_to_bbox0 bbox0 bbox1
        = Ok (half_diff a0 a1 b0 b1, half_diff a2 a3 b2 b3, half_diff a4 a5 b4 b5))
  /\ ((length bbox0 < 6)%nat \/ (length bbox1 < 6)%nat ->
      calc_movement_from_bbox1_to_bbox0 bbox0 bbox1 = Raise IndexError).
Proof.
  split.
  - intros [H0 H1].
    destruct bbox0 as [|a0 [|a1 [|a2 [|a3 [|a4 [|a5 r0]]]]]]; cbn in H0; try lia.
    destruct bbox1 as [|b0 [|b1 [|b2 [|b3 [|b4 [|b5 r1]]]]]]; cbn in H1; try lia.
    exists a0, a1, a2, a3, a4, a5, b0, b1, b2, b3, b4, b5. repeat split.
  - intros Hshort. unfold calc_movement_from_bbox1_to_bbox0.
    destruct (item_cases bbox0 0) as [(a0 & -> & ?)|[-> ?]]; [|reflexivity].
    destruct (item_cases bbox0 1) as [(a1 & -> & ?)|[-> ?]]; [|reflexivity].
    destruct (item_cases bbox1 0) as [(b0 & -> & ?)|[-> ?]]; [|reflexivity].
    destruct (item_cases bbox1 1) as [(b1 & -> & ?)|[-> ?]]; [|reflexivity].
    destruct (item_cases bbox0 2) as [(a2 & -> & ?)|[-> ?]]; [|reflexivity].
    destruct (item_cases bbox0 3) as [(a3 & -> & ?)|[-> ?]]; [|reflexivity].
    destruct (item_cases bbox1 2) as [(b2 & -> & ?)|[-> ?]]; [|reflexivity].
    destruct (item_cases bbox1 3) as [(b3 & -> & ?)|[-> ?]]; [|reflexivity].
    destruct (item_cases bbox0 4) as [(a4 & -> & ?)|[-> ?]]; [|reflexivity].
    destruct (item_cases bbox0 5) as [(a5 & -> & ?)|[-> ?]]; [|reflexivity].
    destruct (item_cases bbox1 4) as [(b4 & -> & ?)|[-> ?]]; [|reflexivity].
    destruct (item_cases bbox1 5) as [(b5 & -> & ?)|[-> ?]]; [|reflexivity].
    lia.
Qed.

End GeometryMore.

(** ** Import of a document: what is created and what is kept *)

Section SceneImportMore.
Context `{Builtins} `{Blender} `{Fds}.
Variable all : list BFClass.

Lemma unmanaged_namelist_cls tk :
  unmanaged_namelist all tk -> get_imported_bf_namelist_cls all tk.1.1 tk.1.2 = Ok None.
Proof.
  intros [Hl Hp]. unfold get_imported_bf_namelist_cls. rewrite Hl.
  destruct (existsb _ _) eqn:He; [|reflexivity].
  apply existsb_exists in He as [label [Hin Hex]].
  apply existsb_exists in Hex as [kv [Hkv Heq]].
  apply String.eqb_eq in Heq. exfalso. apply (Hp kv).
  - apply list_elem_of_In. exact Hkv.
  - rewrite Heq. apply list_elem_of_In. exact Hin.
Qed.

Lemma import_namelists_unmanaged ts : forall errors free_texts w,
  Forall (unmanaged_namelist all) ts ->
  import_namelists all ts errors free_texts w
  = (Ok (errors, (free_texts ++ map snd ts)%list), w).
Proof.
  induction ts as [|[[k params] original] ts IH]; intros errors free_texts w Hall.
  - cbn. rewrite app_nil_r. reflexivity.
  - apply Forall_cons in Hall as [Hu Hall].
    cbn [import_namelists]. pose proof (unmanaged_namelist_cls _ Hu) as Hc.
    cbn [fst snd] in Hc. rewrite Hc.
    rewrite IH by exact Hall. cbn [map snd]. rewrite <- app_assoc. reflexivity.
Qed.

Lemma sorted_by_label_Forall (P : token -> Prop) ts :
  Forall P ts -> Forall P (sorted_by_label ts).
Proof.
  intros Hall. unfold sorted_by_label. apply Forall_app.
  split; apply Forall_forall; intros t Hin;
    apply list_elem_of_In, filter_In in Hin as [Hin _];
    apply (proj1 (Forall_forall _ _) Hall); apply list_elem_of_In; exact Hin.
Qed.

(** X17.  A document none of whose namelists is managed is imported
    without an error and creates nothing: the scene, the objects and the
    materials are as [set_free_text_file] leaves them, and the free text
    file holds the original texts of all the namelists, in the order the
    import takes them, before what it held. *)
Theorem BFScene_from_fds_unmanaged
    (value : string) (ts : list token) (w w2 : world) (name old_free_texts : string) :
  tokenize value = Ok ts ->
  Forall (unmanaged_namelist all) ts ->
  set_free_text_file w = (name, w2) ->
  texts w2 !! name = Some old_free_texts ->
  BFScene_from_fds all value w
  = (Ok (),
     MkWorld (scene w2) (objects w2) (materials w2)
       (<[name := merged (map snd (sorted_by_label ts)) old_free_texts]> (texts w2))).
Proof.
  intros Htok Hall Hset Hold.
  unfold BFScene_from_fds, import_document. rewrite Htok.
  rewrite import_namelists_unmanaged by (apply sorted_by_label_Forall; exact Hall).
  unfold save_imported_unmanaged_tokens. rewrite Hset, Hold. unfold merged.
  cbn [app]. destruct (String.eqb old_free_texts ""); rewrite ?app_nil_r; reflexivity.
Qed.

(** X18.  A document the tokenizer refuses creates nothing.  When the
    tokenizer raises a [BFException], its free texts are written to the free
    text file before what the file held, and the import raises the summary
    error of the scene; another exception passes through and nothing is
    written. *)
Theorem BFScene_from_fds_tokenizer_error (value : string) (err : exn) (w : world) :
  tokenize value = Raise err ->
  match err with
  | EBF b =>
      forall name w2 old_free_texts,
        set_free_text_file w = (name, w2) ->
        texts w2 !! name = Some old_free_texts ->
        BFScene_from_fds all value w
        = (Raise (EBF (BFExc (FromScene (py_str (getattr (scene w2) "name")))
                    "Errors reported, see details in HEAD free text file." [])),
           MkWorld (scene w2) (objects w2) (materials w2)
             (<[name := merged (free_texts_of b) old_free_texts]> (texts w2)))
  | _ => BFScene_from_fds all value w = (Raise err, w)
  end.
Proof.
  intros Htok. unfold BFScene_from_fds, import_document. rewrite Htok.
  destruct err; try reflexivity.
  intros name w2 old Hset Hold. cbn.
  unfold save_imported_unmanaged_tokens. rewrite Hset, Hold. unfold merged.
  destruct (String.eqb old ""); rewrite ?app_nil_r; reflexivity.
Qed.

Lemma prefix_insert_beyond (po l : list element) (i : nat) (e : element) :
  (length po <= i)%nat -> po `prefix_of` l -> po `prefix_of` <[i := e]> l.
Proof.
  intros Hi [k ->]. exists (<[(i - length po)%nat := e]> k).
  apply insert_app_r_alt. exact Hi.
Qed.

Lemma on_element_kept {A} po pm h (m : io A) w :
  beyond po pm h -> kept po pm w -> kept po pm (on_element h m w).2.
Proof.
  intros Hb [Ho Hm]. unfold on_element.
  destruct (m (get_element h w)) as [r e']. cbn [snd].
  destruct h as [|i|i]; cbn [put_element beyond] in *; split; cbn;
    first [assumption | apply prefix_insert_beyond; assumption].
Qed.

Lemma creates_then po pm (m : st world handle) (f : io unit) (k : handle -> st world handle) :
  creates po pm m ->
  (forall h, beyond po pm h -> creates po pm (k h)) ->
  creates po pm (h ← m; _ ← on_element h f; k h).
Proof.
  intros Hm Hk w Hw. unfold mbind, st_bind.
  destruct (Hm w Hw) as [Hw1 Hh].
  destruct (m w) as [[h|err] w1]; cbn [fst snd] in *; [|split; [exact Hw1|discriminate]].
  specialize (Hh h eq_refl).
  pose proof (on_element_kept po pm h f w1 Hh Hw1) as Hw2.
  destruct (on_element h f w1) as [[[]|err] w2]; cbn [fst snd] in *;
    [|split; [exact Hw2|discriminate]].
  apply Hk; assumption.
Qed.

Lemma get_imported_element_creates po pm c fds_label' :
  creates po pm (get_imported_element all c fds_label').
Proof.
  assert (Hret : forall h, beyond po pm h -> creates po pm (mret h : st world handle)).
  { intros h Hh w Hw. split; [exact Hw|]. intros h' [= <-]. exact Hh. }
  assert (Hlast : forall (f : io unit) h, beyond po pm h ->
            creates po pm (_ ← on_element h f; (mret h : st world handle))).
  { intros f h Hh w Hw. unfold mbind, st_bind.
    pose proof (on_element_kept po pm h f w Hh Hw) as Hw2.
    destruct (on_element h f w) as [[[]|err] w2]; cbn [fst snd] in *;
      [|split; [exact Hw2|discriminate]].
    apply Hret; assumption. }
  unfold get_imported_element. destruct (bpy_type c) as [[| |]|].
  - apply Hlast. exact I.
  - apply creates_then; [|intros h Hh; apply Hlast; exact Hh].
    intros w [Ho Hm]. split; [split; cbn; [|exact Hm]|].
    + destruct Ho as [k ->]. exists (k ++ [{[ "name" := VStr ("New " +:+ fds_label') ]}])%list.
      symmetry. apply app_assoc.
    + intros h [= <-]. cbn. apply prefix_length. exact Ho.
  - apply creates_then; [|intros h Hh; apply Hlast; exact Hh].
    intros w [Ho Hm]. split; [split; cbn; [exact Ho|]|].
    + destruct Hm as [k ->]. exists (k ++ [{[ "name" := VStr ("New " +:+ fds_label') ]}])%list.
      symmetry. apply app_assoc.
    + intros h [= <-]. cbn. apply prefix_length. exact Hm.
  - intros w Hw. split; [exact Hw|discriminate].
Qed.

Lemma import_namelists_kept po pm ts : forall errors free_texts w,
  kept po pm w -> kept po pm (import_namelists all ts errors free_texts w).2.
Proof.
  induction ts as [|[[k params] original] ts IH]; intros errors free_texts w Hw;
    [exact Hw|].
  cbn [import_namelists].
  destruct (get_imported_bf_namelist_cls all k params) as [[c|]|err];
    [|apply IH; exact Hw|exact Hw].
  destruct (get_imported_element_creates po pm c k w Hw) as [Hw1 Hh].
  destruct (get_imported_element all c k w) as [[h|err] w1]; cbn [fst snd] in *;
    [|exact Hw1].
  pose proof (on_element_kept po pm h (BFNamelist_from_fds c (Some params)) w1
                (Hh h eq_refl) Hw1) as Hw2.
  destruct (on_element h (BFNamelist_from_fds c (Some params)) w1) as [[[]|err] w2];
    cbn [snd] in Hw2.
  - apply IH. exact Hw2.
  - destruct err; cbn [snd]; first [apply IH; exact Hw2 | exact Hw2].
Qed.

(** X19.  The import of a document never removes or changes an object or
    a material that was there: whatever the document and however the import
    ends, the objects and the materials it leaves begin with those it
    found, what it creates coming after them. *)
Theorem import_document_keeps_elements (value : string) (w : world) :
  objects w `prefix_of` objects (import_document all value w).2
  /\ materials w `prefix_of` materials (import_document all value w).2.
Proof.
  assert (Hw : kept (objects w) (materials w) w) by (split; reflexivity).
  unfold import_document.
  destruct (tokenize value) as [ts|[]]; try exact Hw.
  apply import_namelists_kept. exact Hw.
Qed.
End SceneImportMore.

(** ** Export of the scene itself *)

Section SceneExportMore.
Context `{Builtins}.

Lemma namelists_to_fds_app ns e : forall rest bodies,
  Forall (fun n => error_of (BFNamelist_to_fds n e).1 = None) ns ->
  namelists_to_fds (ns ++ rest) e bodies
  = namelists_to_fds rest e (bodies ++ namelist_bodies ns e).
Proof.
  induction ns as [|n ns IH]; intros rest bodies Hall.
  - cbn. rewrite app_nil_r. reflexivity.
  - apply Forall_cons in Hall as [Hn Hall].
    cbn [app namelists_to_fds]. unfold namelist_bodies. cbn [omap list_omap].
    fold (namelist_bodies ns e).
    destruct (BFNamelist_to_fds n e).1 as [body|err]; [|discriminate]. cbn.
    rewrite IH by exact Hall.
    destruct (str_truthy body); cbn; [rewrite <- app_assoc|]; reflexivity.
Qed.

(** X20.  The scene does not collect the errors of its namelists as a
    namelist collects those of its properties.  As long as no namelist
    raises, the scene gives the records of those that have one, in the order
    of [bf_namelists], and a blank line after them when there is a record;
    the first namelist that raises ends the export with its own exception,
    whatever the namelists after it would give. *)
Theorem myself_to_fds_first_error (ns : list instance) (e : element) :
  Forall (fun n => error_of (BFNamelist_to_fds n e).1 = None) ns ->
  myself_to_fds ns e
  = Ok match namelist_bodies ns e with
       | [] => []
       | bodies => (bodies ++ [nl])%list
       end
  /\ forall n rest err,
       (BFNamelist_to_fds n e).1 = Raise err ->
       myself_to_fds (ns ++ n :: rest) e = Raise err.
Proof.
  intros Hall. split.
  - unfold myself_to_fds.
    rewrite <- (app_nil_r ns) at 1. rewrite namelists_to_fds_app by exact Hall.
    cbn. destruct (namelist_bodies ns e); reflexivity.
  - intros n rest err Hn. unfold myself_to_fds.
    rewrite namelists_to_fds_app by exact Hall.
    cbn [namelists_to_fds]. rewrite Hn. reflexivity.
Qed.

Lemma last_char_append (a b : string) (x : ascii) :
  last_char b = Some x -> last_char (a +:+ b) = Some x.
Proof.
  intros Hb. induction a as [|c a IH]; [exact Hb|].
  change (String c a +:+ b) with (String c (a +:+ b)).
  destruct (a +:+ b) as [|d s]; [discriminate|exact IH].
Qed.

(** X21.  The free text of the scene is exported whole and ends its
    line.  With no file named, or an empty one, nothing is exported; a name
    with no text block raises [KeyError]; otherwise the bodies are a comment
    naming the file, then the text as it is, then a newline exactly when the
    text does not end with one, so that what is exported ends with a
    newline. *)
Theorem free_text_to_fds_ends_line (name : string) (texts : gmap string string) :
  match free_text_to_fds name texts with
  | Ok [] => name = "" \/ texts !! name = Some ""
  | Ok (header :: bodies) =>
      exists free_text,
        name <> "" /\ texts !! name = Some free_text /\ free_text <> ""
        /\ header = "! --- Free text: '" +:+ name +:+ "'" +:+ nl
        /\ (bodies = [free_text] /\ last_char free_text = Some (ascii_of_nat 10)
            \/ bodies = [free_text; nl] /\ last_char free_text <> Some (ascii_of_nat 10))
        /\ last_char (join "" (header :: bodies)) = Some (ascii_of_nat 10)
  | Raise err => err = KeyError /\ name <> "" /\ texts !! name = None
  end.
Proof.
  unfold free_text_to_fds.
  destruct (String.eqb name "") eqn:Hname; [left; apply String.eqb_eq; exact Hname|].
  apply String.eqb_neq in Hname.
  destruct (texts !! name) as [free_text|] eqn:Hlook; [|auto].
  destruct (String.eqb free_text "") eqn:Hft;
    [right; apply String.eqb_eq in Hft; subst; reflexivity|].
  apply String.eqb_neq in Hft.
  destruct (last_char free_text) as [a|] eqn:Hlast;
    [destruct (Ascii.eqb a (ascii_of_nat 10)) eqn:Ha|].
  - apply Ascii.eqb_eq in Ha. subst a.
    exists free_text. repeat apply conj; try assumption; try reflexivity.
    + left. split; [reflexivity|exact Hlast].
    + cbn [join]. apply last_char_append, last_char_append. exact Hlast.
  - apply Ascii.eqb_neq in Ha.
    exists free_text. repeat apply conj; try assumption; try reflexivity.
    + right. split; [reflexivity|]. rewrite Hlast. intros [= ->]. apply Ha. reflexivity.
    + cbn [join]. do 4 apply last_char_append. reflexivity.
  - exists free_text. repeat apply conj; try assumption; try reflexivity.
    + right. split; [reflexivity|]. rewrite Hlast. discriminate.
    + cbn [join]. do 4 apply last_char_append. reflexivity.
Qed.
End SceneExportMore.

(** ** When the rendering of a value raises *)

Section FormatRaises.
Context `{Builtins}.

Lemma mapM_raises {A B} (f : A -> result B) (l : list A) err :
  mapM f l = Raise err -> exists y, y ∈ l /\ f y = Raise err.
Proof.
  induction l as [|x l IH]; [discriminate|].
  cbn. destruct (f x) as [b|err'] eqn:Hx; cbn.
  - destruct (mapM f l) as [bs|err'']; cbn; [discriminate|].
    intros [= ->]. destruct (IH eq_refl) as [y [Hy Hf]].
    exists y. split; [right; exact Hy|exact Hf].
  - intros [= ->]. exists x. split; [left|exact Hx].
Qed.

(** X22.  [BFProp.format] raises in two cases only: [IndexError] for the
    empty sequence, and, for a sequence that begins with a float, the
    exception of the first of its other elements that the fixed-point
    format does not take.  Sequences that begin with a boolean, an integer
    or a string are rendered whatever they hold. *)
Theorem BFProp_format_raises (c : BFClass) (v : value) (err : exn) :
  BFProp_format c v = Raise err ->
  v = VTuple [] /\ err = IndexError
  \/ exists x rest y,
       values_of v = VFloat x :: rest /\ y ∈ rest
       /\ format_fixed (default 3%nat (bpy_precision c)) y = Raise err.
Proof.
  intros Hf. unfold BFProp_format in Hf.
  assert (Hr : render_values c v (values_of v) = Raise err).
  { destruct v; try discriminate;
      destruct (render_values c _ _) as [r|err']; cbn in Hf; congruence. }
  clear Hf. unfold render_values in Hr.
  destruct (values_of v) as [|x rest] eqn:Hv.
  - left. injection Hr as <-. split; [|reflexivity].
    destruct v as [| | | | |[|]]; cbn in Hv; congruence.
  - right. destruct x; try discriminate.
    + destruct (mapM _ _) as [parts|err'] eqn:Hm; cbn in Hr; [discriminate|].
      injection Hr as ->. apply mapM_raises in Hm as [y [Hy Hfy]].
      apply elem_of_cons in Hy as [->|Hy]; [discriminate|].
      eexists _, _, y. split; [reflexivity|]. split; assumption.
    + destruct (truthy v); discriminate.
Qed.
End FormatRaises.

(** * Examples

    Runs of the engine on the sample descriptors. *)

Module Examples.
Import Samples.

(** The two scenarios of the spec, through [to_fds], and a whole record. *)
Example ID_example :
  (BFProp_to_fds (new OP_ID) obstacle).1 = Ok (Some "ID='example'").
Proof. vm_compute. reflexivity. Qed.

Example COLOR_example :
  (BFProp_to_fds (new OP_COLOR) obstacle).1 = Ok (Some "COLOR=3,4,5").
Proof. vm_compute. reflexivity. Qed.

Example OBST_example :
  (BFNamelist_to_fds (new ON_OBST) obstacle).1
  = Ok (Some ("&OBST ID='example' COLOR=3,4,5 /" +:+ nl)).
Proof. vm_compute. reflexivity. Qed.

Example record_example :
  BFNamelist_format ON_OBST [] [VStr "ID='x'"; VStr "XB=1.,2.,3.,4.,5.,6."]
  = Ok ("&OBST ID='x' XB=1.,2.,3.,4.,5.,6. /" +:+ nl).
Proof. vm_compute. reflexivity. Qed.

Example PI_example :
  BFProp_format (descriptor "PI" BFProp (Some "PI") VNone None) (VFloat 0x1.91eb851eb851fp+1)
  = Ok (Some "PI=3.140").
Proof. vm_compute. reflexivity. Qed.



(** C1, the counterexample: a property with no [fds_default] and no export
    flag is exported, yet its export is [None] when its value is the empty
    string. *)
Lemma exported_yet_none :
  get_exported OP_ID (<["bf_id" := VStr ""]> obstacle) = true
  /\ (BFProp_to_fds (new OP_ID) (<["bf_id" := VStr ""]> obstacle)).1 = Ok None.
Proof. split; vm_compute; reflexivity. Qed.

(** C2, the witness: two of the four properties fail their checks; the
    namelist raises one error that nests both. *)
Lemma collects_errors_witness :
  (BFNamelist_to_fds (new ON_OBST) faulty).1
    = Raise (EBF (BFExc (FromNamelist "ON_OBST") "Following errors reported"
        [EBF (BFExc (FromProp "OP_FYI") "& and / characters not allowed" []);
         EBF (BFExc (FromProp "OP_free")
                "Only use matched single quotes as 'string' delimiters" [])]))
  /\ props_of (BFNamelist_to_fds (new ON_OBST) faulty).2
     = exported (props_of (new ON_OBST)) faulty.
Proof.
  destruct (BFNamelist_to_fds_collects_errors (new ON_OBST) faulty) as [Hall _].
  - vm_compute. reflexivity.
  - vm_compute. reflexivity.
  - destruct Hall as (Hr & _ & _ & Hp).
    + repeat (constructor; [vm_compute; reflexivity|]). constructor.
    + apply Exists_cons_tl, Exists_cons_hd. eexists. vm_compute. reflexivity.
    + split; [|exact Hp]. rewrite Hr. vm_compute. reflexivity.
Defined.

(** C2, the counterexample: the description of the obstacle is missing
    and its free parameters fail their check.  The description raises a
    [TypeError], which the namelist does not catch: it raises that
    [TypeError] and no compound error, and the error of the free
    parameters is not reported. *)
Lemma stops_at_foreign_exception :
  get_exported ON_OBST unchecked = true
  /\ (BFProp_to_fds (new OP_FYI) unchecked).1 = Raise TypeError
  /\ (BFProp_to_fds (new OP_free) unchecked).1
     = Raise (EBF (BFExc (FromProp "OP_free")
                "Only use matched single quotes as 'string' delimiters" []))
  /\ (BFNamelist_to_fds (new ON_OBST) unchecked).1 = Raise TypeError.
Proof. repeat split; vm_compute; reflexivity. Qed.

(** C3, the witness, which is the scenario of the spec: the token [FOO]
    with the text [1] is managed by no property of the namelist; after the
    import the free-text property holds [FOO=1]. *)
Lemma unmanaged_witness :
  get_value OP_free (BFNamelist_from_fds ON_OBST (Some [("FOO", (VInt 1, "1"))]) obstacle).2
  = VStr "FOO=1".
Proof.
  destruct (BFNamelist_from_fds_unmanaged ON_OBST OP_free "bf_free"
              [("FOO", (VInt 1, "1"))] obstacle obstacle) as [_ Hv].
  - discriminate.
  - reflexivity.
  - reflexivity.
  - intros x Hx. injection Hx as <-. discriminate.
  - reflexivity.
  - discriminate.
  - reflexivity.
  - exact Hv.
Defined.

(** Managed and unmanaged tokens together: the managed ones are assigned,
    the others kept in order. *)
Example mixed_tokens :
  let t := [("FOO", (VInt 1, "1")); ("ID", (VStr "wall", "'wall'"));
            ("BAR", (VStr "b", "'b'"))] in
  let e := (BFNamelist_from_fds ON_OBST (Some t) obstacle).2 in
  get_value OP_free e = VStr "FOO=1 BAR='b'" /\ get_value OP_ID e = VStr "wall".
Proof. split; vm_compute; reflexivity. Qed.


(** C6, the counterexample: the check of the property appends an info.
    The first export of the instance comments the record with the info
    once, the second export of the same instance three times. *)
Lemma second_export_differs :
  (BFNamelist_to_fds (new ON_VENT) vent).1
    = Ok (Some (("! 1 voxel" +:+ nl) +:+ ("&VENT XB='BBOX' /" +:+ nl)))
  /\ (BFNamelist_to_fds (BFNamelist_to_fds (new ON_VENT) vent).2 vent).1
    = Ok (Some (("! 1 voxel" +:+ nl) +:+ ("! 1 voxel" +:+ nl) +:+ ("! 1 voxel" +:+ nl) +:+
                ("&VENT XB='BBOX' /" +:+ nl))).
Proof. split; vm_compute; reflexivity. Qed.

(** C6, the witness: the classes of [types.py] append no info. *)
Lemma twice_witness :
  (BFNamelist_to_fds (BFNamelist_to_fds (new ON_OBST) obstacle).2 obstacle).1
  = (BFNamelist_to_fds (new ON_OBST) obstacle).1.
Proof.
  apply (BFNamelist_to_fds_twice ON_OBST obstacle).
  - reflexivity.
  - repeat (constructor; [reflexivity|]). constructor.
Defined.

(** C7, the counterexample: two single quotes, an even number, and no
    other refused character, yet the check of a [BFStringProp] raises. *)
Lemma even_quotes_refused :
  Nat.even (count_char "'" "''") = true
  /\ contains "&" "''" || contains "/" "''" || contains "#" "''" = false
  /\ (check OP_FYI (<["bf_fyi" := VStr "''"]> obstacle)).2
     = Raise (EBF (BFExc (FromProp "OP_FYI") "Quote characters not allowed" [])).
Proof. repeat split; vm_compute; reflexivity. Qed.

(** C7, the witness: one unmatched single quote in a free property. *)
Lemma string_checks_witness :
  count_char "'" "A='it" = 1%nat
  /\ raises_bf (check OP_free (<["bf_free" := VStr "A='it"]> obstacle)).2.
Proof.
  split; [reflexivity|].
  destruct (string_checks OP_free (<["bf_free" := VStr "A='it"]> obstacle) "A='it")
    as (_ & Hone & _).
  - reflexivity.
  - reflexivity.
  - apply Hone; reflexivity.
Defined.

(** C5, the witness: the unmanaged namelist of the document is put before
    what the free text file held. *)
Lemma merges_witness :
  texts (BFScene_from_fds [ON_OBST] "&OBST ... / &DUMP ... /" case).2 !! "notes"
  = Some ("&DUMP NFRAMES=100 /" +:+ nl +:+ "&MISC TMPA=25. /").
Proof.
  destruct (BFScene_from_fds_merges [ON_OBST] "&OBST ... / &DUMP ... /" case)
    as [Hwritten _].
  destruct (Hwritten
              (import_document [ON_OBST] "&OBST ... / &DUMP ... /" case).2
              (import_document [ON_OBST] "&OBST ... / &DUMP ... /" case).2
              false ["&DUMP NFRAMES=100 /"] "notes" "&MISC TMPA=25. /")
    as (_ & Ht & _).
  - vm_compute. reflexivity.
  - vm_compute. reflexivity.
  - vm_compute. reflexivity.
  - rewrite Ht. rewrite lookup_insert_eq. reflexivity.
Defined.

(** C5, the counterexample: a document of a namelist that no class
    manages and of a [HEAD], imported into a Blender that has no render
    engine of the name [CYCLES].  The default appearance of the scene is
    refused with a [TypeError]; the import raises it, and the free text
    file is not written: it holds what it held, without the text of the
    unmanaged namelist. *)
Lemma unwritten_on_foreign_exception :
  tokenize (Fds := dump_then_head) "&DUMP ... / &HEAD ... /"
  = Ok [("DUMP", [("NFRAMES", (VInt 100, "100"))], "&DUMP NFRAMES=100 /");
        ("HEAD", [("CHID", (VStr "case", "'case'"))], "&HEAD CHID='case' /")]
  /\ (@BFScene_from_fds plain_repr no_cycles dump_then_head [SN_HEAD]
        "&DUMP ... / &HEAD ... /" case).1 = Raise TypeError
  /\ texts (@BFScene_from_fds plain_repr no_cycles dump_then_head [SN_HEAD]
              "&DUMP ... / &HEAD ... /" case).2 !! "notes"
     = Some "&MISC TMPA=25. /".
Proof. repeat split; vm_compute; reflexivity. Qed.

(** With nothing unmanaged the file is written with what it held. *)
Example nothing_unmanaged :
  (BFScene_from_fds [ON_OBST] "" case).1 = Ok ()
  /\ texts (BFScene_from_fds [ON_OBST] "" case).2 !! "notes" = Some "&MISC TMPA=25. /".
Proof. split; vm_compute; reflexivity. Qed.

(** The obstacle of the document becomes a new object. *)
Example imported_object :
  let w := (BFScene_from_fds [ON_OBST] "&OBST ... / &DUMP ... /" case).2 in
  (fun o => (getattr o "name", getattr o "bf_id", getattr o "bf_free",
             getattr o "bf_export", getattr o "draw_type")) <$> objects w
  = [(VStr "New OBST", VStr "wall", VStr "THICKEN=.TRUE.", VBool true, VStr "SOLID")].
Proof. vm_compute. reflexivity. Qed.

Import Geometry.

(** C10, the counterexample, along the first axis: for [bbox0] from 0.1 to
    0.7 and [bbox1] from 0.3 to 0.5 the movement is -2^-55 while the
    centres, 0.39999999999999997 and 0.4, differ by -2^-54; moved,
    [bbox1] is as wide as 0.20000000000000007, not 0.2. *)
Lemma movement_rounds :
  let bbox0 := [0x1.999999999999ap-4; 0x1.6666666666666p-1; 0; 0; 0; 0]%float in
  let bbox1 := [0x1.3333333333333p-2; 0x1p-1; 0; 0; 0; 0]%float in
  calc_movement_from_bbox1_to_bbox0 bbox0 bbox1 = Ok (-0x1p-55, 0, 0)%float
  /\ ((0x1.999999999999ap-4 + 0x1.6666666666666p-1) / 2
      - (0x1.3333333333333p-2 + 0x1p-1) / 2 = -0x1p-54)%float
  /\ Qeq_bool (F2Q (-0x1p-55))
       (centre 0x1.999999999999ap-4 0x1.6666666666666p-1
        - centre 0x1.3333333333333p-2 0x1p-1) = false
  /\ move_xbs [bbox1] (-0x1p-55, 0, 0)%float
     = (Ok (), [[0x1.3333333333332p-2; 0x1p-1; 0; 0; 0; 0]%float])
  /\ (0x1p-1 - 0x1.3333333333332p-2 = 0x1.999999999999cp-3
      /\ 0x1p-1 - 0x1.3333333333333p-2 = 0x1.999999999999ap-3)%float.
Proof. cbv zeta. repeat split; vm_compute; reflexivity. Qed.

(** Past the range of binary64 the sums overflow: for two equal boxes
    with bounds 2^1023 the movement along the first axis is not 0 but
    infinite. *)
Example movement_overflows :
  let bbox := [0x1p+1023; 0x1p+1023; 0; 0; 0; 0]%float in
  calc_movement_from_bbox1_to_bbox0 bbox bbox = Ok (infinity, 0, 0)%float.
Proof. vm_compute. reflexivity. Qed.

(** C10, the witness: boxes with small integer bounds, where nothing
    rounds. *)
Lemma movement_witness :
  calc_movement_from_bbox1_to_bbox0 [1; 3; 2; 4; 0; 8]%float [0; 1; 0; 1; 0; 1]%float
    = Ok (1.5, 2.5, 3.5)%float
  /\ move_xbs [[0; 1; 0; 1; 0; 1]%float] (1.5, 2.5, 3.5)%float
     = (Ok (), [[1.5; 2.5; 2.5; 3.5; 3.5; 4.5]%float]).
Proof.
  destruct (GeometryProps.movement_between_centres 1 3 2 4 0 8 0 1 0 1 0 1) as (Hc & Hm & _).
  - repeat split; vm_compute; reflexivity.
  - repeat split; vm_compute; reflexivity.
  - repeat split; vm_compute; reflexivity.
  - split; [exact Hc | exact Hm].
Defined.

End Examples.

(** * Further examples *)

Module Coverage.
Import Samples.


(** The import of a namelist leaves the name of the object alone. *)
Lemma frame_witness :
  getattr (BFNamelist_from_fds ON_OBST
             (Some [("ID", (VStr "wall", "'wall'")); ("FOO", (VInt 1, "1"))]) named).2 "name"
  = getattr named "name".
Proof.
  apply (BFNamelist_from_fds_frame ON_OBST
           (Some [("ID", (VStr "wall", "'wall'")); ("FOO", (VInt 1, "1"))]) named "name").
  refine (bool_decide_eq_true_1 _ _). vm_compute. reflexivity.
Defined.

(** A value that differs from the default, imported: it is read back, the
    export flag is set and the property is exported. *)
Lemma then_get_witness :
  get_value OP_THICKEN (BFProp_from_fds OP_THICKEN (VBool true) obstacle).2 = VBool true
  /\ get_value OP_THICKEN_export (BFProp_from_fds OP_THICKEN (VBool true) obstacle).2
     = VBool true
  /\ get_exported OP_THICKEN (BFProp_from_fds OP_THICKEN (VBool true) obstacle).2 = true.
Proof.
  destruct (BFProp_from_fds_then_get OP_THICKEN (VBool true) obstacle "bf_thicken")
    as (Hv & Hx & He).
  - reflexivity.
  - intros x [= <-]. exists "bf_thicken_export". split; [reflexivity|discriminate].
  - reflexivity.
  - split; [exact Hv|]. split; [apply Hx; reflexivity|exact He].
Defined.

(** A colour given by name to a Blender whose colour takes no string: the
    import of the namelist raises, naming the value. *)
Lemma refused_witness :
  match (@BFNamelist_from_fds plain_repr no_string_colour ON_OBST
           (Some [("ID", (VStr "wall", "'wall'")); ("COLOR", (VStr "RED", "'RED'"))])
           obstacle).1 with
  | Ok _ => False
  | Raise (EBF (BFExc snd msg errors)) =>
      snd = sender_of ON_OBST /\ msg = "Following errors reported"
      /\ EBF (BFExc (sender_of OP_COLOR)
                ("Error importing '" +:+ py_str (VStr "RED") +:+ "' value") [])
         ∈ errors
  | Raise _ => True
  end.
Proof.
  apply (@BFNamelist_from_fds_refused plain_repr no_string_colour ON_OBST OP_COLOR
           "COLOR" (VStr "RED") "'RED'" "bf_color").
  - right. left.
  - reflexivity.
  - reflexivity.
  - intros e'. reflexivity.
Defined.

(** The record of the obstacle, by way of [format]. *)
Lemma record_witness :
  (BFNamelist_to_fds (new ON_OBST) obstacle).1
  = Ok (Some ("&OBST ID='example' COLOR=3,4,5 /" +:+ nl)).
Proof.
  etransitivity; [apply (BFNamelist_to_fds_record (new ON_OBST) obstacle)|].
  - reflexivity.
  - reflexivity.
  - repeat (constructor; [eexists; vm_compute; reflexivity|]). constructor.
  - vm_compute. reflexivity.
Defined.

(** The description of the obstacle is missing: the export of the
    namelist ends with the [TypeError] of that property, after the export
    of the one before it. *)
Lemma foreign_witness :
  (BFNamelist_to_fds (new ON_OBST) undescribed).1 = Raise TypeError
  /\ props_of (BFNamelist_to_fds (new ON_OBST) undescribed).2
     = (exported [new OP_ID] undescribed
        ++ (BFProp_to_fds (new OP_FYI) undescribed).2 :: [new OP_COLOR; new OP_free])%list.
Proof.
  apply (BFNamelist_to_fds_foreign (new ON_OBST) undescribed
           [new OP_ID] [new OP_COLOR; new OP_free] (new OP_FYI) TypeError).
  - reflexivity.
  - reflexivity.
  - reflexivity.
  - repeat (constructor; [vm_compute; reflexivity|]). constructor.
  - vm_compute. reflexivity.
  - reflexivity.
Defined.

(** A description with a refused character fails with a [BFException]. *)
Lemma caught_witness :
  caught (BFProp_to_fds (new OP_FYI) faulty).1 = true.
Proof.
  apply (string_prop_caught OP_FYI faulty "walls & floor" [] []).
  - reflexivity.
  - left. reflexivity.
  - reflexivity.
Defined.

(** A description that is missing fails with a [TypeError]. *)
Lemma type_error_witness :
  (BFProp_to_fds (new OP_FYI) undescribed).1 = Raise TypeError
  /\ caught (BFProp_to_fds (new OP_FYI) undescribed).1 = false.
Proof.
  apply (string_prop_type_error OP_FYI undescribed [] []).
  - reflexivity.
  - left. reflexivity.
  - reflexivity.
  - reflexivity.
  - intros s. vm_compute. discriminate.
Defined.

Lemma plain_witness :
  BFNamelist_format ON_OBST [] [VStr "ID='x'"; VStr "XB=1.,2.,3.,4.,5.,6."]
  = Ok ("" +:+ ("&" +:+ "OBST" +:+ " ") +:+
        join " " (["ID='x'"; "XB=1.,2.,3.,4.,5.,6."] ++ ["/" +:+ nl])%list).
Proof.
  apply (BFNamelist_format_plain ON_OBST "OBST" [] ""
           ["ID='x'"; "XB=1.,2.,3.,4.,5.,6."]); reflexivity.
Defined.

(** A free namelist: the first parameter is the label. *)
Lemma free_label_witness :
  BFNamelist_format ON_free [] [VStr "DEVC"; VStr "ID='x'"; VStr "XYZ=1.,2.,3."]
  = Ok ("" +:+ ("&" +:+ "DEVC" +:+ " ") +:+
        join " " (["ID='x'"; "XYZ=1.,2.,3."] ++ ["/" +:+ nl])%list).
Proof.
  destruct (BFNamelist_format_free_label ON_free [] "") as (_ & _ & Hf).
  - reflexivity.
  - reflexivity.
  - exact (Hf "DEVC" ["ID='x'"; "XYZ=1.,2.,3."]).
Defined.

Lemma two_multiparams_witness :
  BFNamelist_format ON_OBST []
    ((VStr <$> ["ID='a'"]) ++ VTuple [VStr "XB=0,1,0,1,0,1"; VStr "XB=1,2,0,1,0,1"]
       :: [VStr "COLOR=3,4,5"] ++ VTuple [VStr "XYZ=0,0,0"; VStr "XYZ=1,1,1"] :: [])%list
  = Raise TypeError.
Proof.
  apply (BFNamelist_format_two_multiparams ON_OBST "OBST" [] ""); reflexivity.
Defined.

Lemma empty_multiparam_witness :
  BFNamelist_format ON_OBST []
    ((VStr <$> ["COLOR=3,4,5"; "ID='a'"]) ++ VTuple [] :: (VStr <$> ["SURF_ID='w'"]))%list
  = Ok ("" +:+ ("&" +:+ "OBST" +:+ " ") +:+
        join " " (["COLOR=3,4,5"] ++ ["SURF_ID='w'"] ++ ["/" +:+ nl])%list).
Proof.
  apply (BFNamelist_format_empty_multiparam ON_OBST "OBST" [] ""
           ["COLOR=3,4,5"; "ID='a'"] ["SURF_ID='w'"] ["COLOR=3,4,5"] ["SURF_ID='w'"] "ID='a'").
  - reflexivity.
  - reflexivity.
  - reflexivity.
  - repeat (constructor; [reflexivity|]). constructor.
  - reflexivity.
Defined.

(** The rendering of a sequence that begins with a float and holds a
    string raises the [ValueError] of the string. *)
Lemma format_raises_witness :
  VTuple [VFloat 1; VStr "a"] = VTuple [] /\ ValueError = IndexError
  \/ exists x rest y,
       values_of (VTuple [VFloat 1; VStr "a"]) = VFloat x :: rest /\ y ∈ rest
       /\ format_fixed (default 3%nat (bpy_precision OP_COLOR)) y = Raise ValueError.
Proof.
  apply (BFProp_format_raises OP_COLOR (VTuple [VFloat 1; VStr "a"]) ValueError).
  vm_compute. reflexivity.
Defined.

(** A document of namelists that no class manages, the registry being
    empty: both are kept, before what the file held. *)
Lemma scene_unmanaged_witness :
  BFScene_from_fds [] "&OBST ... / &DUMP ... /" case
  = (Ok (),
     MkWorld (scene case) (objects case) (materials case)
       (<["notes" := merged (map snd (sorted_by_label document)) "&MISC TMPA=25. /"]>
          (texts case))).
Proof.
  apply (BFScene_from_fds_unmanaged [] "&OBST ... / &DUMP ... /" document case case
           "notes" "&MISC TMPA=25. /").
  - reflexivity.
  - repeat (constructor;
      [split; [reflexivity|];
       intros kv Hkv;
       repeat (apply elem_of_cons in Hkv as [->|Hkv]);
       try (apply elem_of_nil in Hkv; destruct Hkv);
       refine (bool_decide_eq_true_1 _ _); vm_compute; reflexivity|]).
    constructor.
  - reflexivity.
  - reflexivity.
Defined.

(** A document the tokenizer does not read. *)
Lemma tokenizer_error_witness :
  @BFScene_from_fds plain_repr any_assignment unreadable [ON_OBST] "&OBST" case
  = (Raise (EBF (BFExc (FromScene (py_str (getattr (scene case) "name")))
              "Errors reported, see details in HEAD free text file." [])),
     MkWorld (scene case) (objects case) (materials case)
       (<["notes" := merged ["! Unrecognized FDS syntax"] "&MISC TMPA=25. /"]>
          (texts case))).
Proof.
  apply (@BFScene_from_fds_tokenizer_error plain_repr any_assignment unreadable
           [ON_OBST] "&OBST"
           (EBF (BFExc (FromScene "tokenize") "Unrecognized FDS syntax" [])) case
           eq_refl "notes" case "&MISC TMPA=25. /"); reflexivity.
Defined.

(** The scene of the plan: [TIME] alone is exported with a blank line
    after it; with [HEAD], whose [CHID] holds a refused character, between
    two namelists [TIME], the export ends with the error of [HEAD]. *)
Lemma myself_witness :
  myself_to_fds [new SN_TIME] plan = Ok ["&TIME T_END=10.0 /" +:+ nl; nl]
  /\ myself_to_fds ([new SN_TIME] ++ new SN_HEAD :: [new SN_TIME]) plan
     = Raise (EBF (BFExc (FromNamelist "SN_HEAD") "Following errors reported"
         [EBF (BFExc (FromProp "SP_HEAD_CHID") "& and / characters not allowed" [])])).
Proof.
  destruct (myself_to_fds_first_error [new SN_TIME] plan) as [Hok Herr].
  - repeat (constructor; [vm_compute; reflexivity|]). constructor.
  - split.
    + rewrite Hok. vm_compute. reflexivity.
    + apply Herr. vm_compute. reflexivity.
Defined.

Import Geometry.

(** A box of seven entries loses the seventh. *)
Lemma moves_all_witness :
  (move_xbs [[0; 1; 0; 1; 0; 1; 9]; [1; 2; 0; 1; 0; 1]]%float (1, 2, 3)%float).1 = Ok ()
  /\ Forall2 (fun xb xb' => move_xb (1, 2, 3)%float xb = Ok xb')
       [[0; 1; 0; 1; 0; 1; 9]; [1; 2; 0; 1; 0; 1]]%float
       (move_xbs [[0; 1; 0; 1; 0; 1; 9]; [1; 2; 0; 1; 0; 1]]%float (1, 2, 3)%float).2
  /\ Forall (fun xb' => length xb' = 6%nat)
       (move_xbs [[0; 1; 0; 1; 0; 1; 9]; [1; 2; 0; 1; 0; 1]]%float (1, 2, 3)%float).2.
Proof.
  apply (GeometryMore.move_xbs_moves_all
           [[0; 1; 0; 1; 0; 1; 9]; [1; 2; 0; 1; 0; 1]]%float (1, 2, 3)%float).
  repeat (constructor; [cbn; lia|]). constructor.
Defined.

(** The second box is short: the first has been moved, the others not. *)
Lemma short_box_witness :
  move_xbs ([[0; 1; 0; 1; 0; 1]] ++ [0; 1] :: [[1; 2; 0; 1; 0; 1]])%float%list (1, 2, 3)%float
  = (Raise IndexError,
     ((move_xbs [[0; 1; 0; 1; 0; 1]]%float (1, 2, 3)%float).2
      ++ [0; 1]%float :: [[1; 2; 0; 1; 0; 1]]%float)%list).
Proof.
  apply (GeometryMore.move_xbs_short_box
           [[0; 1; 0; 1; 0; 1]]%float [[1; 2; 0; 1; 0; 1]]%float [0; 1]%float
           (1, 2, 3)%float).
  - repeat (constructor; [cbn; lia|]). constructor.
  - cbn. lia.
Defined.

End Coverage.
